(** * OANDA -> Google Sheets -> Discord bot: the polling cycle

    A shallow embedding of [monitor_and_report] and [append_bulk_to_sheet]
    from [oanda_gsheets_bot2.1.py] and [oanda_gsheets_bot3.py].

    - JSON values returned by the pricing endpoint are the inductive [pyval];
      subscripting and the [str] methods raise the Python exception the
      interpreter raises ([KeyError], [IndexError], [TypeError],
      [AttributeError]).
    - The body of a cycle runs in a state-and-exception monad [M]: the state
      holds the chronological trace of external calls and log records, the
      contents of the spreadsheet, the messages delivered to the channel and
      the local variables of the function; an exception keeps the state
      reached when it was raised, as Python does with mutated lists.
    - The external collaborators (OANDA client, gspread client, Discord
      channel, clock) are oracles gathered in the record [world].
    - [datetime.fromisoformat] and [strftime] are parameters of the whole
      development. *)

From Stdlib Require Import Strings.String Strings.Ascii Lists.List.
From Stdlib Require Import Arith.PeanoNat ZArith.ZArith micromega.Lia Bool.Bool.
From Stdlib Require Import Numbers.DecimalString.
Import ListNotations.
Local Open Scope list_scope.
Local Open Scope string_scope.

Set Implicit Arguments.
Set Warnings "-register-all".

(** ** Python values and exceptions *)

(** The values [json.loads] builds. A [dict] keeps its insertion order and its
    keys are strings; a float is kept as its literal. *)
Inductive pyval : Type :=
| PNone
| PBool (b : bool)
| PInt (z : Z)
| PFloat (literal : string)
| PStr (s : string)
| PList (items : list pyval)
| PDict (fields : list (string * pyval)).

(** The exception classes that can occur in a cycle. All of them derive from
    [Exception]. [LibraryError] stands for whatever a client library raises
    (V20Error, gspread's APIError, discord's HTTPException, a network error);
    it carries the text [str(e)] renders. *)
Inductive exn : Type :=
| KeyError
| IndexError
| ValueError
| TypeError
| AttributeError
| LibraryError (text : string).

(** [d[k]] on the association list of a dict. *)
Fixpoint dict_get (fields : list (string * pyval)) (k : string) : option pyval :=
  match fields with
  | [] => None
  | (k', v) :: rest => if String.eqb k' k then Some v else dict_get rest k
  end.

(** [v[k]] with a string key [k]. *)
Definition subscript_key (v : pyval) (k : string) : exn + pyval :=
  match v with
  | PDict fields =>
      match dict_get fields k with
      | Some x => inr x
      | None => inl KeyError
      end
  | _ => inl TypeError
  end.

(** [v[i]] with a non-negative integer index [i]. A dict built from JSON has
    no integer key. *)
Definition subscript_index (v : pyval) (i : nat) : exn + pyval :=
  match v with
  | PList items =>
      match nth_error items i with
      | Some x => inr x
      | None => inl IndexError
      end
  | PStr s =>
      match String.get i s with
      | Some c => inr (PStr (String c EmptyString))
      | None => inl IndexError
      end
  | PDict _ => inl KeyError
  | _ => inl TypeError
  end.

(** ** The [str] methods the bot uses *)

Fixpoint spaces (n : nat) : string :=
  match n with
  | O => EmptyString
  | S n' => String " " (spaces n')
  end.

(** [s.ljust(width)] and [s.rjust(width)] with the default fill character. *)
Definition ljust (s : string) (width : nat) : string :=
  s ++ spaces (width - String.length s).

Definition rjust (s : string) (width : nat) : string :=
  spaces (width - String.length s) ++ s.

(** [s.replace(old, new)] for a one-character [old]. *)
Fixpoint replace (s : string) (old : ascii) (new : string) : string :=
  match s with
  | EmptyString => EmptyString
  | String c rest =>
      if Ascii.eqb c old then new ++ replace rest old new
      else String c (replace rest old new)
  end.

(** [s.split(sep)] for a one-character [sep]: never empty. *)
Fixpoint split (s : string) (sep : ascii) : list string :=
  match s with
  | EmptyString => [EmptyString]
  | String c rest =>
      if Ascii.eqb c sep then EmptyString :: split rest sep
      else match split rest sep with
           | [] => [String c EmptyString]
           | piece :: pieces => String c piece :: pieces
           end
  end.

(** [str.isspace] on one character below code point 256. *)
Definition isspace (c : ascii) : bool :=
  let n := nat_of_ascii c in
  (((9 <=? n) && (n <=? 13)) || ((28 <=? n) && (n <=? 32))
   || (n =? 133) || (n =? 160))%nat.

Fixpoint lstrip (s : string) : string :=
  match s with
  | EmptyString => EmptyString
  | String c rest => if isspace c then lstrip rest else s
  end.

Fixpoint rstrip (s : string) : string :=
  match s with
  | EmptyString => EmptyString
  | String c rest =>
      match rstrip rest with
      | EmptyString => if isspace c then EmptyString else String c EmptyString
      | kept => String c kept
      end
  end.

Definition strip (s : string) : string := rstrip (lstrip s).

(** [sep.join(pieces)]. *)
Fixpoint join (sep : string) (pieces : list string) : string :=
  match pieces with
  | [] => EmptyString
  | [p] => p
  | p :: rest => p ++ sep ++ join sep rest
  end.

(** [c * n] for a one-character string [c]. *)
Fixpoint repeat_char (c : ascii) (n : nat) : string :=
  match n with
  | O => EmptyString
  | S n' => String c (repeat_char c n')
  end.

(** [str(n)] for a length. *)
Definition str_of_nat (n : nat) : string :=
  NilZero.string_of_uint (Nat.to_uint n).

Definition newline : string := String (ascii_of_nat 10) EmptyString.

(** A method call on a value that may not be a [str]. *)
Definition method_ljust (v : pyval) (width : nat) : exn + string :=
  match v with
  | PStr s => inr (ljust s width)
  | _ => inl AttributeError
  end.

Definition method_rjust (v : pyval) (width : nat) : exn + string :=
  match v with
  | PStr s => inr (rjust s width)
  | _ => inl AttributeError
  end.

Definition method_replace (v : pyval) (old : ascii) (new : string) : exn + string :=
  match v with
  | PStr s => inr (replace s old new)
  | _ => inl AttributeError
  end.

(** [response.get('prices', [])]: only a dict has [get]. *)
Definition method_get (v : pyval) (k : string) (default : pyval) : exn + pyval :=
  match v with
  | PDict fields =>
      match dict_get fields k with
      | Some x => inr x
      | None => inr default
      end
  | _ => inl AttributeError
  end.

(** What a [for] loop iterates over: the items of a list, the keys of a dict,
    the characters of a string; anything else is not iterable. *)
Definition iterate (v : pyval) : exn + list pyval :=
  match v with
  | PList items => inr items
  | PDict fields => inr (map (fun kv => PStr (fst kv)) fields)
  | PStr s => inr (map (fun c => PStr (String c EmptyString)) (list_ascii_of_string s))
  | _ => inl TypeError
  end.

(** ** A reference clock library

    An instance of the two [datetime] functions, used to run the model on
    concrete records. It reads exactly the shape [YYYY-MM-DDTHH:MM:SS+00:00]
    (what a second-resolution OANDA timestamp becomes once its [Z] is
    replaced) and rejects any other string; Python reads more shapes, and
    the theorems below hold for any parser. *)
Module IsoSeconds.

Record datetime : Type := mkDatetime
  { year : nat; month : nat; day : nat;
    hour : nat; minute : nat; second : nat }.

Definition digit (c : ascii) : option nat :=
  let n := nat_of_ascii c in
  if ((48 <=? n) && (n <=? 57))%nat then Some (n - 48) else None.

Definition two_digits (a b : ascii) : option nat :=
  match digit a, digit b with
  | Some x, Some y => Some (10 * x + y)
  | _, _ => None
  end.

Definition four_digits (a b c d : ascii) : option nat :=
  match two_digits a b, two_digits c d with
  | Some x, Some y => Some (100 * x + y)
  | _, _ => None
  end.

Definition is_leap (y : nat) : bool :=
  ((y mod 4 =? 0) && (negb (y mod 100 =? 0) || (y mod 400 =? 0)))%nat.

Definition days_in_month (y m : nat) : nat :=
  match m with
  | 2 => if is_leap y then 29 else 28
  | 4 | 6 | 9 | 11 => 30
  | _ => 31
  end.

Definition in_range (d : datetime) : bool :=
  ((1 <=? year d) && (1 <=? month d) && (month d <=? 12)
   && (1 <=? day d) && (day d <=? days_in_month (year d) (month d))
   && (hour d <=? 23) && (minute d <=? 59) && (second d <=? 59))%nat.

Definition fromisoformat (s : string) : option datetime :=
  match list_ascii_of_string s with
  | [y1; y2; y3; y4; "-"; m1; m2; "-"; d1; d2; "T"; h1; h2; ":"; n1; n2; ":";
     s1; s2; "+"; "0"; "0"; ":"; "0"; "0"]%char =>
      match four_digits y1 y2 y3 y4, two_digits m1 m2, two_digits d1 d2,
            two_digits h1 h2, two_digits n1 n2, two_digits s1 s2 with
      | Some y, Some m, Some d, Some h, Some n, Some sec =>
          let dt := mkDatetime y m d h n sec in
          if in_range dt then Some dt else None
      | _, _, _, _, _, _ => None
      end
  | _ => None
  end.

Definition pad2 (n : nat) : string :=
  if (n <? 10)%nat then "0" ++ str_of_nat n else str_of_nat n.

Definition pad4 (n : nat) : string :=
  if (n <? 10)%nat then "000" ++ str_of_nat n
  else if (n <? 100)%nat then "00" ++ str_of_nat n
  else if (n <? 1000)%nat then "0" ++ str_of_nat n
  else str_of_nat n.

(** [dt.strftime('%Y-%m-%d %H:%M:%S')]. *)
Definition strftime (d : datetime) : string :=
  pad4 (year d) ++ "-" ++ pad2 (month d) ++ "-" ++ pad2 (day d) ++ " "
  ++ pad2 (hour d) ++ ":" ++ pad2 (minute d) ++ ":" ++ pad2 (second d).

Definition now : datetime := mkDatetime 2024 1 2 3 4 6.

End IsoSeconds.

(** ** Sample records

    Records of the shape the pricing endpoint returns, for running the
    model. *)

Definition quote (instrument : string) (bid ask : string) : list (string * pyval) :=
  [("type", PStr "PRICE");
   ("instrument", PStr instrument);
   ("bids", PList [PDict [("price", PStr bid); ("liquidity", PInt 10000000)]]);
   ("asks", PList [PDict [("price", PStr ask); ("liquidity", PInt 10000000)]])].

(** A complete record. *)
Definition quote_ok : pyval :=
  PDict (quote "EUR_USD" "1.10000" "1.10020"
         ++ [("time", PStr "2024-01-02T03:04:05Z"); ("status", PStr "tradeable")])%list.

(** The same record without its [time] key. *)
Definition quote_no_time : pyval :=
  PDict (quote "EUR_USD" "1.10000" "1.10020" ++ [("status", PStr "tradeable")])%list.

(** A record whose [bids] array is empty. *)
Definition quote_no_bids : pyval :=
  PDict [("type", PStr "PRICE");
         ("instrument", PStr "USD_JPY");
         ("bids", PList []);
         ("asks", PList [PDict [("price", PStr "150.010")]]);
         ("time", PStr "2024-01-02T03:04:05Z");
         ("status", PStr "non-tradeable")].

(** A record whose instrument symbol is longer than ten characters. *)
Definition quote_long : pyval :=
  PDict (quote "NATGAS_USD_CFD" "2.531" "2.539"
         ++ [("time", PStr "2024-01-02T03:04:05Z"); ("status", PStr "tradeable")])%list.

(** A record whose first bid carries [null] for a price. *)
Definition quote_null_bid : pyval :=
  PDict [("type", PStr "PRICE");
         ("instrument", PStr "GBP_USD");
         ("bids", PList [PDict [("price", PNone)]]);
         ("asks", PList [PDict [("price", PStr "1.27010")]]);
         ("time", PStr "2024-01-02T03:04:05Z");
         ("status", PStr "tradeable")].

Definition prices_response (records : list pyval) : pyval :=
  PDict [("time", PStr "2024-01-02T03:04:05Z"); ("prices", PList records)].

(** ** The two versions of the bot *)

Inductive version : Type :=
| Bot21   (* oanda_gsheets_bot2.1.py *)
| Bot3.   (* oanda_gsheets_bot3.py *)

(** The environment variables the cycle reads. *)
Record config : Type := mkConfig
  { CHECK_INTERVAL_SECONDS : Z;
    OANDA_ACCOUNT_ID : string;
    GOOGLE_SHEET_NAME : string;
    INSTRUMENTS_STR : string }.

Definition sample_config (instruments : string) : config :=
  mkConfig 60 "101-004-1234567-001" "Prices" instruments.

(** [[inst.strip() for inst in INSTRUMENTS_STR.split(',')]]. Only 2.1 builds
    the list; its length is the number of instruments requested. *)
Definition INSTRUMENTS_LIST (cfg : config) : list string :=
  map strip (split (INSTRUMENTS_STR cfg) ",").

(** A spreadsheet row: [[instrument, timestamp_str, status, bid, ask]]. *)
Definition row : Type := list pyval.

Inductive colour : Type := Red | Green | Orange.

Inductive level : Type := INFO | WARNING | ERROR.

Record embed_field : Type := mkField
  { field_name : string; field_value : string; field_inline : bool }.

(** ** Start-up: reading the environment

    The module-level code of both files: [os.getenv] is the function
    [getenv], [int] is a parameter ([None]: it raises [ValueError]), and
    [exit()] after a [logging.error] is the outcome [Fatal] with the message
    logged. *)

(** A reference [int]: optional surrounding whitespace, an optional sign,
    decimal digits with single underscores between them. *)
Module PyInt.

Fixpoint digits (acc : Z) (after_digit : bool) (l : list ascii) : option Z :=
  match l with
  | [] => if after_digit then Some acc else None
  | c :: rest =>
      match IsoSeconds.digit c with
      | Some d => digits (10 * acc + Z.of_nat d) true rest
      | None =>
          if (Ascii.eqb c "_" && after_digit)%bool then digits acc false rest
          else None
      end
  end.

(** The white space [int] skips at both ends: tab to carriage return, the
    space, and the two blanks above 127 (NEL and the no-break space); the
    separators 28 to 31, which [str.strip] removes, are not skipped. *)
Definition isspace (c : ascii) : bool :=
  let n := nat_of_ascii c in
  (((9 <=? n) && (n <=? 13)) || (n =? 32) || (n =? 133) || (n =? 160))%nat.

Fixpoint lstrip (s : string) : string :=
  match s with
  | EmptyString => EmptyString
  | String c rest => if isspace c then lstrip rest else s
  end.

Fixpoint rstrip (s : string) : string :=
  match s with
  | EmptyString => EmptyString
  | String c rest =>
      match rstrip rest with
      | EmptyString => if isspace c then EmptyString else String c EmptyString
      | kept => String c kept
      end
  end.

Definition int (s : string) : option Z :=
  match rstrip (lstrip s) with
  | String "+" rest => digits 0 false (list_ascii_of_string rest)
  | String "-" rest => option_map Z.opp (digits 0 false (list_ascii_of_string rest))
  | t => digits 0 false (list_ascii_of_string t)
  end.

End PyInt.

(** The number of occurrences of a character. *)
Fixpoint count_char (c : ascii) (s : string) : nat :=
  match s with
  | EmptyString => 0
  | String c' rest => (if Ascii.eqb c' c then 1 else 0) + count_char c rest
  end.

Module Startup.

(** The module-level names once the environment is read. A variable that
    [os.getenv] did not find is [None]. *)
Record settings : Type := mkSettings
  { BOT_TOKEN : option string;
    CHANNEL_ID : Z;
    CHECK_INTERVAL_SECONDS : Z;
    OANDA_ACCOUNT_ID : option string;
    OANDA_ACCESS_TOKEN : option string;
    OANDA_ENVIRONMENT : string;
    GOOGLE_SHEET_NAME : option string;
    SERVICE_ACCOUNT_FILE : option string;
    INSTRUMENTS_STR : string }.

Inductive startup : Type :=
| Fatal (message : string)
| Loaded (s : settings).

(** [os.getenv(name, default)]. *)
Definition getenv_default (getenv : string -> option string) (name default : string)
  : string :=
  match getenv name with
  | Some x => x
  | None => default
  end.

(** Truth value of a string that may be [None]. *)
Definition truthy (o : option string) : bool :=
  match o with
  | Some (String _ _) => true
  | _ => false
  end.

(** [int(os.getenv(name))]: [None] when it raises [TypeError] (variable
    not set) or [ValueError]. *)
Definition int_getenv (int : string -> option Z) (getenv : string -> option string)
           (name : string) : option Z :=
  match getenv name with
  | Some x => int x
  | None => None
  end.

Definition not_an_integer : string :=
  "FATAL: CHANNEL_ID or CHECK_INTERVAL_SECONDS is not a valid integer.".

(** Lines 22-43 of 2.1 and 38-53 of 3, top to bottom. Only 2.1 ends with
    the [all([...])] test; only 3 gives SERVICE_ACCOUNT_FILE a default. *)
Definition load_config (v : version) (int : string -> option Z)
           (getenv : string -> option string) : startup :=
  let bot_token := getenv "BOT_TOKEN" in
  match int_getenv int getenv "CHANNEL_ID" with
  | None => Fatal not_an_integer
  | Some channel_id =>
      match int (getenv_default getenv "CHECK_INTERVAL_SECONDS" "60") with
      | None => Fatal not_an_integer
      | Some interval =>
          let account_id := getenv "OANDA_ACCOUNT_ID" in
          let access_token := getenv "OANDA_ACCESS_TOKEN" in
          let environment := getenv_default getenv "OANDA_ENVIRONMENT" "practice" in
          let sheet_name := getenv "GOOGLE_SHEET_NAME" in
          let account_file :=
            match v with
            | Bot21 => getenv "SERVICE_ACCOUNT_FILE"
            | Bot3 =>
                Some (getenv_default getenv "SERVICE_ACCOUNT_FILE"
                        "wiseguys-c6650-710e87e96c88.json")
            end in
          match getenv "INSTRUMENTS" with
          | Some (String c rest) =>
              let loaded :=
                Loaded (mkSettings bot_token channel_id interval account_id
                          access_token environment sheet_name account_file
                          (String c rest)) in
              match v with
              | Bot21 =>
                  if (truthy bot_token && negb (channel_id =? 0)%Z
                      && truthy account_id && truthy access_token
                      && truthy sheet_name && truthy account_file)%bool
                  then loaded
                  else Fatal "FATAL: A critical environment variable is missing. Check your .env file."
              | Bot3 => loaded
              end
          | _ =>
              Fatal (match v with
                     | Bot21 => "FATAL: INSTRUMENTS environment variable is not set."
                     | Bot3 => "FATAL: INSTRUMENTS not set."
                     end)
          end
      end
  end.

(** What [monitor_and_report] reads of the settings, when the account and
    the sheet name are set. *)
Definition cycle_config (s : settings) : option config :=
  match OANDA_ACCOUNT_ID s, GOOGLE_SHEET_NAME s with
  | Some account_id, Some sheet_name =>
      Some (mkConfig (CHECK_INTERVAL_SECONDS s) account_id sheet_name
                     (INSTRUMENTS_STR s))
  | _, _ => None
  end.

(** An environment for running the model. *)
Definition sample_env (name : string) : option string :=
  if String.eqb name "BOT_TOKEN" then Some "token"
  else if String.eqb name "CHANNEL_ID" then Some "1234567890"
  else if String.eqb name "OANDA_ACCOUNT_ID" then Some "101-004-1234567-001"
  else if String.eqb name "OANDA_ACCESS_TOKEN" then Some "secret"
  else if String.eqb name "GOOGLE_SHEET_NAME" then Some "Prices"
  else if String.eqb name "SERVICE_ACCOUNT_FILE" then Some "service.json"
  else if String.eqb name "INSTRUMENTS" then Some "EUR_USD, USD_JPY"
  else None.

End Startup.

Section Cycle.

(** [datetime.fromisoformat] ([None]: it raises [ValueError]) and
    [dt.strftime('%Y-%m-%d %H:%M:%S')]. *)
Variable datetime : Type.
Variable fromisoformat : string -> option datetime.
Variable strftime : datetime -> string.

(** *** Messages, collaborators, state *)

Record embed : Type := mkEmbed
  { embed_title : string;
    embed_description : option string;
    embed_color : colour;
    embed_timestamp : option datetime;
    embed_fields : list embed_field;
    embed_footer : option string }.

(** What a cycle does to the outside, in order. A call is recorded when it
    is attempted, whether or not it then raises. *)
Inductive event : Type :=
| Log (lvl : level) (message : string) (error : option exn)
| PricingRequest (account_id instruments : string)
| SheetOpen (sheet_name : string)
| SheetAppendRows (rows : list row)
| ChannelSend (e : embed).

(** An authorised gspread client: whether [client.open(name).sheet1] and
    [sheet.append_rows(rows, value_input_option='USER_ENTERED')] raise,
    and with which text. *)
Record gspread_client : Type := mkClient
  { client_open : string -> option string;
    sheet_append_rows : list row -> option string }.

(** A Discord channel: whether [channel.send(embed=e)] raises. *)
Record channel : Type := mkChannel
  { channel_send : embed -> option string }.

(** The collaborators of one cycle. [oanda_request] answers the request
    for an account and an instrument string with the decoded response or
    raises. *)
Record world : Type := mkWorld
  { bot_get_channel : option channel;
    oanda_request : string -> string -> string + pyval;
    bot_gspread_client : option gspread_client;
    utcnow : datetime }.

(** The trace, the first worksheet of the spreadsheet, the embeds the
    channel accepted, and the locals of [monitor_and_report]. A call
    starts from [fresh]: no local is read before the code assigns it. *)
Record state : Type := mkState
  { events : list event;
    sheet1 : list row;
    delivered : list embed;
    all_rows_for_gsheet : list row;
    table_rows_for_discord : list string;
    rows_written : nat }.

Definition fresh (sheet : list row) : state :=
  mkState [] sheet [] [] [] 0.

(** *** The monad *)

Definition M (A : Type) : Type := state -> (exn + A) * state.

Definition ret {A} (a : A) : M A := fun st => (inr a, st).

Definition bind {A B} (m : M A) (k : A -> M B) : M B :=
  fun st =>
    match m st with
    | (inr a, st') => k a st'
    | (inl e, st') => (inl e, st')
    end.

Definition raise {A} (e : exn) : M A := fun st => (inl e, st).

Definition lift {A} (r : exn + A) : M A := fun st => (r, st).

(** [try: body / except <classes> as e: handler e]. *)
Definition try_except {A} (body : M A) (caught : exn -> bool)
           (handler : exn -> M A) : M A :=
  fun st =>
    match body st with
    | (inl e, st') => if caught e then handler e st' else (inl e, st')
    | ok => ok
    end.

Definition modify (f : state -> state) : M unit := fun st => (inr tt, f st).

Definition gets {A} (f : state -> A) : M A := fun st => (inr (f st), st).

Notation "x <- c1 ;; c2" := (bind c1 (fun x => c2))
  (at level 61, c1 at next level, right associativity).
Notation "c1 ;; c2" := (bind c1 (fun _ => c2))
  (at level 61, right associativity).

Definition emit (e : event) : M unit :=
  modify (fun st => mkState (events st ++ [e]) (sheet1 st) (delivered st)
                            (all_rows_for_gsheet st) (table_rows_for_discord st)
                            (rows_written st)).

Definition logging (lvl : level) (message : string) (error : option exn) : M unit :=
  emit (Log lvl message error).

Definition set_all_rows_for_gsheet (rows : list row) : M unit :=
  modify (fun st => mkState (events st) (sheet1 st) (delivered st)
                            rows (table_rows_for_discord st) (rows_written st)).

Definition set_table_rows_for_discord (rows : list string) : M unit :=
  modify (fun st => mkState (events st) (sheet1 st) (delivered st)
                            (all_rows_for_gsheet st) rows (rows_written st)).

Definition set_rows_written (n : nat) : M unit :=
  modify (fun st => mkState (events st) (sheet1 st) (delivered st)
                            (all_rows_for_gsheet st) (table_rows_for_discord st) n).

(** [for x in items: body x]. *)
Fixpoint for_each {A} (items : list A) (body : A -> M unit) : M unit :=
  match items with
  | [] => ret tt
  | x :: rest => body x ;; for_each rest body
  end.

(** Which version prints the log line. *)
Definition logging_in (v : version) (only : version -> bool) (lvl : level)
           (message : string) (error : option exn) : M unit :=
  if only v then logging lvl message error else ret tt.

Definition is_Bot21 (v : version) : bool :=
  match v with Bot21 => true | Bot3 => false end.

(** *** The spreadsheet sink *)

(** [client.open(sheet_name).sheet1]; [None] has no [open]. *)
Definition open_sheet1 (client : option gspread_client) (sheet_name : string) : M unit :=
  match client with
  | None => raise AttributeError
  | Some c =>
      emit (SheetOpen sheet_name) ;;
      match client_open c sheet_name with
      | Some text => raise (LibraryError text)
      | None => ret tt
      end
  end.

(** [sheet.append_rows(data_rows, value_input_option='USER_ENTERED')]:
    one call; when it succeeds the rows are at the end of the sheet. *)
Definition append_rows (c : option gspread_client) (data_rows : list row) : M unit :=
  match c with
  | None => raise AttributeError
  | Some c =>
      emit (SheetAppendRows data_rows) ;;
      match sheet_append_rows c data_rows with
      | Some text => raise (LibraryError text)
      | None =>
          modify (fun st => mkState (events st) (sheet1 st ++ data_rows) (delivered st)
                                    (all_rows_for_gsheet st) (table_rows_for_discord st)
                                    (rows_written st))
      end
  end.

Definition append_bulk_to_sheet (v : version) (client : option gspread_client)
           (sheet_name : string) (data_rows : list row) : M nat :=
  match data_rows with
  | [] => ret 0
  | _ :: _ =>
      try_except
        (open_sheet1 client sheet_name ;;
         append_rows client data_rows ;;
         logging_in v is_Bot21 INFO
           ("Successfully appended " ++ str_of_nat (length data_rows)
            ++ " rows to Google Sheet.") None ;;
         ret (length data_rows))
        (fun _ => true)
        (fun e =>
           logging ERROR
             (match v with
              | Bot21 => "Google Sheet bulk append failed: "
              | Bot3 => "GSheet append failed: "
              end) (Some e) ;;
           ret 0)
  end.

(** *** The row transformer: the body of the [for] loop *)

Definition append_table_row (discord_row : string) : M unit :=
  table_rows <- gets table_rows_for_discord ;;
  set_table_rows_for_discord (table_rows ++ [discord_row]).

Definition append_gsheet_row (gsheet_row : row) : M unit :=
  all_rows <- gets all_rows_for_gsheet ;;
  set_all_rows_for_gsheet (all_rows ++ [gsheet_row]).

(** [datetime.fromisoformat(s)]. *)
Definition datetime_fromisoformat (s : string) : exn + datetime :=
  match fromisoformat s with
  | Some dt => inr dt
  | None => inl ValueError
  end.

(** The statements inside [try:], in order. *)
Definition transform (price_data : pyval) : M unit :=
  instrument <- lift (subscript_key price_data "instrument") ;;
  bids <- lift (subscript_key price_data "bids") ;;
  bid0 <- lift (subscript_index bids 0) ;;
  bid_price <- lift (subscript_key bid0 "price") ;;
  asks <- lift (subscript_key price_data "asks") ;;
  ask0 <- lift (subscript_index asks 0) ;;
  ask_price <- lift (subscript_key ask0 "price") ;;
  i <- lift (method_ljust instrument 10) ;;
  b <- lift (method_rjust bid_price 10) ;;
  a <- lift (method_rjust ask_price 10) ;;
  append_table_row (i ++ "| " ++ b ++ " | " ++ a) ;;
  time <- lift (subscript_key price_data "time") ;;
  iso <- lift (method_replace time "Z" "+00:00") ;;
  dt_object <- lift (datetime_fromisoformat iso) ;;
  status <- lift (subscript_key price_data "status") ;;
  append_gsheet_row
    [instrument; PStr (strftime dt_object); status; bid_price; ask_price].

(** [except (KeyError, IndexError, ValueError)] in 2.1,
    [except Exception] in 3. *)
Definition parse_errors (v : version) (e : exn) : bool :=
  match v with
  | Bot21 =>
      match e with
      | KeyError | IndexError | ValueError => true
      | _ => false
      end
  | Bot3 => true
  end.

Definition process_record (v : version) (price_data : pyval) : M unit :=
  try_except (transform price_data) (parse_errors v)
    (fun e =>
       logging WARNING
         (match v with
          | Bot21 => "Could not parse price data for an instrument. Error: "
          | Bot3 => "Could not parse price data. Error: "
          end) (Some e)).

(** [for price_data in response.get('prices', []): ...] after the two
    lists are set to [[]]. *)
Definition process_prices (v : version) (response : pyval) : M unit :=
  set_all_rows_for_gsheet [] ;;
  set_table_rows_for_discord [] ;;
  prices <- lift (method_get response "prices" (PList [])) ;;
  items <- lift (iterate prices) ;;
  for_each items (process_record v).

(** *** The report *)

Definition header : string :=
  ljust "Instrument" 10 ++ "| " ++ rjust "BID" 11 ++ " | " ++ rjust "ASK" 11.

Definition separator : string := repeat_char "-" (String.length header).

Definition full_table (table_rows : list string) : string :=
  "```" ++ newline ++ header ++ newline ++ separator ++ newline
  ++ join newline table_rows ++ newline ++ "```".

Definition report_color (v : version) (cfg : config) (written : nat) : colour :=
  match v with
  | Bot21 =>
      if ((0 <? written) && (written =? length (INSTRUMENTS_LIST cfg)))%nat
      then Green else Orange
  | Bot3 => if (0 <? written)%nat then Green else Orange
  end.

Definition no_data : string := "No price data was returned from the API.".

(** Step 4 of [monitor_and_report]: the embed of a full report. *)
Definition report_embed (v : version) (cfg : config) (now : datetime)
           (written : nat) (all_rows : list row) (table_rows : list string) : embed :=
  mkEmbed "OANDA Price Report"
    (match table_rows, v with
     | [], Bot21 => Some no_data
     | _, _ => None
     end)
    (report_color v cfg written)
    (Some now)
    ((match table_rows with
      | [] => []
      | _ :: _ => [mkField "Live Prices" (full_table table_rows) false]
      end)
     ++ [mkField "Instruments Fetched" ("`" ++ str_of_nat (length all_rows) ++ "`") true;
         mkField "Rows Written to GSheet" ("`" ++ str_of_nat written ++ "`") true])
    (match v with
     | Bot21 => Some "OANDA-GSheets Bot"
     | Bot3 => None
     end).

(** The embed sent when the request to OANDA raised with text [text]. *)
Definition failure_embed (v : version) (text : string) : embed :=
  mkEmbed "OANDA API Failure"
    (Some (match v with
           | Bot21 => "Could not fetch data. Error: `" ++ text ++ "`"
           | Bot3 => "Error: `" ++ text ++ "`"
           end))
    Red None [] None.

(** [await channel.send(embed=e)]. *)
Definition send (ch : channel) (e : embed) : M unit :=
  emit (ChannelSend e) ;;
  match channel_send ch e with
  | Some text => raise (LibraryError text)
  | None =>
      modify (fun st => mkState (events st) (sheet1 st) (delivered st ++ [e])
                                (all_rows_for_gsheet st) (table_rows_for_discord st)
                                (rows_written st))
  end.

(** Step 5: 2.1 wraps the send in [try/except Exception], 3 does not. *)
Definition send_report (v : version) (ch : channel) (e : embed) : M unit :=
  match v with
  | Bot21 =>
      try_except
        (send ch e ;;
         logging INFO "Cycle complete. Report sent to Discord." None)
        (fun _ => true)
        (fun err => logging ERROR "Failed to send message to Discord: " (Some err))
  | Bot3 => send ch e
  end.

(** *** One cycle *)

(** The [except Exception as e:] branch of step 1: log (2.1), send the
    minimal embed, [return]. *)
Definition on_fetch_error (v : version) (ch : channel) (text : string) : M unit :=
  logging_in v is_Bot21 ERROR "OANDA API request failed: "
    (Some (LibraryError text)) ;;
  send ch (failure_embed v text).

(** Steps 2 to 5, run on the response of a request that returned. *)
Definition on_response (v : version) (cfg : config) (w : world) (ch : channel)
           (response : pyval) : M unit :=
  process_prices v response ;;
  all_rows <- gets all_rows_for_gsheet ;;
  written <- match bot_gspread_client w with
             | Some c =>
                 append_bulk_to_sheet v (Some c) (GOOGLE_SHEET_NAME cfg) all_rows
             | None => ret 0
             end ;;
  set_rows_written written ;;
  table_rows <- gets table_rows_for_discord ;;
  send_report v ch
    (report_embed v cfg (utcnow w) written all_rows table_rows).

Definition monitor_and_report (v : version) (cfg : config) (w : world) : M unit :=
  match bot_get_channel w with
  | None =>
      logging WARNING
        (match v with
         | Bot21 => "Cannot find Discord channel. Will retry next cycle."
         | Bot3 => "Cannot find Discord channel."
         end) None
  | Some ch =>
      logging_in v is_Bot21 INFO
        ("Starting data fetch for " ++ str_of_nat (length (INSTRUMENTS_LIST cfg))
         ++ " instruments.") None ;;
      emit (PricingRequest (OANDA_ACCOUNT_ID cfg) (INSTRUMENTS_STR cfg)) ;;
      match oanda_request w (OANDA_ACCOUNT_ID cfg) (INSTRUMENTS_STR cfg) with
      | inl text => on_fetch_error v ch text
      | inr response => on_response v cfg w ch response
      end
  end.

(** [@tasks.loop(seconds=CHECK_INTERVAL_SECONDS)]: the loop awaits the
    coroutine; when it returns the loop sleeps until the next iteration is
    due, when it raises the exception goes to the loop's error path and
    the regular wait is not taken. *)
Inductive loop_action : Type :=
| SleepUntilNextIteration (seconds : Z)
| IterationRaised (e : exn).

Definition loop_iteration (v : version) (cfg : config) (w : world)
  : state -> loop_action * state :=
  fun st =>
    match monitor_and_report v cfg w st with
    | (inr _, st') => (SleepUntilNextIteration (CHECK_INTERVAL_SECONDS cfg), st')
    | (inl e, st') => (IterationRaised e, st')
    end.

(** *** Shapes of price records *)

(** The first entry of the [side] array of a record holds the price [p]. *)
Definition first_price (fields : list (string * pyval)) (side : string)
           (p : pyval) : Prop :=
  exists entry rest,
    dict_get fields side = Some (PList (PDict entry :: rest))
    /\ dict_get entry "price" = Some p.

(** The record has an instrument symbol, a first bid and a first ask. *)
Definition has_quote (fields : list (string * pyval)) (i b a : string) : Prop :=
  dict_get fields "instrument" = Some (PStr i)
  /\ first_price fields "bids" (PStr b)
  /\ first_price fields "asks" (PStr a).

(** A valid record: a quote, a status and a timestamp that parses. *)
Definition valid_record (r : pyval) (i b a : string) (status : pyval)
           (dt : datetime) : Prop :=
  exists fields t,
    r = PDict fields
    /\ has_quote fields i b a
    /\ dict_get fields "time" = Some (PStr t)
    /\ fromisoformat (replace t "Z" "+00:00") = Some dt
    /\ dict_get fields "status" = Some status.

(** The [side] array is missing, is empty, or its first entry has no
    price. *)
Inductive lacks_first_price (fields : list (string * pyval)) (side : string) : Prop :=
| side_missing : dict_get fields side = None -> lacks_first_price fields side
| side_empty : dict_get fields side = Some (PList []) -> lacks_first_price fields side
| price_missing entry rest :
    dict_get fields side = Some (PList (PDict entry :: rest)) ->
    dict_get entry "price" = None ->
    lacks_first_price fields side.

(** A record without a usable quote: the first of instrument, first bid,
    first ask that is absent. *)
Inductive lacks_quote : pyval -> Prop :=
| instrument_missing fields :
    dict_get fields "instrument" = None -> lacks_quote (PDict fields)
| bid_missing fields i :
    dict_get fields "instrument" = Some i ->
    lacks_first_price fields "bids" ->
    lacks_quote (PDict fields)
| ask_missing fields i b :
    dict_get fields "instrument" = Some i ->
    first_price fields "bids" b ->
    lacks_first_price fields "asks" ->
    lacks_quote (PDict fields).

(** A record with a quote whose timestamp is missing or does not parse, or
    whose status is missing. *)
Inductive lacks_stamp (fields : list (string * pyval)) : Prop :=
| time_missing : dict_get fields "time" = None -> lacks_stamp fields
| time_unparseable t :
    dict_get fields "time" = Some (PStr t) ->
    fromisoformat (replace t "Z" "+00:00") = None ->
    lacks_stamp fields
| status_missing t dt :
    dict_get fields "time" = Some (PStr t) ->
    fromisoformat (replace t "Z" "+00:00") = Some dt ->
    dict_get fields "status" = None ->
    lacks_stamp fields.

(** The two rows of a quote. *)
Definition sheet_row (i : string) (dt : datetime) (status : pyval)
           (b a : string) : row :=
  [PStr i; PStr (strftime dt); status; PStr b; PStr a].

Definition display_row (i b a : string) : string :=
  ljust i 10 ++ "| " ++ rjust b 10 ++ " | " ++ rjust a 10.

(** What a record adds to the two lists: its SheetRows and its
    DisplayRows. *)
Inductive contributes : pyval -> list row -> list string -> Prop :=
| contributes_valid r i b a status dt :
    valid_record r i b a status dt ->
    contributes r [sheet_row i dt status b a] [display_row i b a]
| contributes_display_only fields i b a :
    has_quote fields i b a ->
    lacks_stamp fields ->
    contributes (PDict fields) [] [display_row i b a]
| contributes_nothing r :
    lacks_quote r ->
    contributes r [] [].

(** The state with the two lists replaced. *)
Definition with_rows (st : state) (all_rows : list row)
           (table_rows : list string) : state :=
  mkState (events st) (sheet1 st) (delivered st) all_rows table_rows
          (rows_written st).

Definition log_event (e : event) : bool :=
  match e with
  | Log _ _ _ => true
  | _ => false
  end.

(** Two states that differ only by log records and by the two lists. *)
Definition same_outside (st st' : state) : Prop :=
  sheet1 st' = sheet1 st
  /\ delivered st' = delivered st
  /\ rows_written st' = rows_written st
  /\ exists logs, events st' = (events st ++ logs)%list /\ forallb log_event logs = true.

(** From [st] to [st'] the lists grew by at most [n] DisplayRows and by no
    more SheetRows than DisplayRows; the rest moved by log records only. *)
Definition grows (st st' : state) (n : nat) : Prop :=
  same_outside st st'
  /\ exists srows drows,
      all_rows_for_gsheet st' = (all_rows_for_gsheet st ++ srows)%list
      /\ table_rows_for_discord st' = (table_rows_for_discord st ++ drows)%list
      /\ length srows <= length drows
      /\ length drows <= n.

(** The embeds passed to [channel.send], in order. *)
Fixpoint sent_embeds (evs : list event) : list embed :=
  match evs with
  | [] => []
  | ChannelSend e :: rest => e :: sent_embeds rest
  | _ :: rest => sent_embeds rest
  end.

(** The calls made to the spreadsheet service, in order. *)
Fixpoint sheet_calls (evs : list event) : list event :=
  match evs with
  | [] => []
  | SheetOpen name :: rest => SheetOpen name :: sheet_calls rest
  | SheetAppendRows rows :: rest => SheetAppendRows rows :: sheet_calls rest
  | _ :: rest => sheet_calls rest
  end.

(** Both calls of the sink go through. *)
Definition append_succeeds (client : option gspread_client)
           (sheet_name : string) (data_rows : list row) : bool :=
  match client with
  | Some c =>
      match client_open c sheet_name, sheet_append_rows c data_rows with
      | None, None => true
      | _, _ => false
      end
  | None => false
  end.

(** The records the provider returned: what the [for] loop iterates. *)
Definition price_items (response : pyval) : list pyval :=
  match method_get response "prices" (PList []) with
  | inr prices =>
      match iterate prices with
      | inr items => items
      | inl _ => []
      end
  | inl _ => []
  end.

(** The state of a cycle when the request to OANDA has been issued. *)
Definition requested (v : version) (cfg : config) (st : state) : state :=
  snd ((logging_in v is_Bot21 INFO
          ("Starting data fetch for "
           ++ str_of_nat (length (INSTRUMENTS_LIST cfg)) ++ " instruments.") None ;;
        emit (PricingRequest (OANDA_ACCOUNT_ID cfg) (INSTRUMENTS_STR cfg))) st).

(** The spreadsheet calls [append_bulk_to_sheet] makes. *)
Definition sink_calls (client : option gspread_client) (sheet_name : string)
           (data_rows : list row) : list event :=
  match data_rows, client with
  | [], _ => []
  | _ :: _, None => []
  | _ :: _, Some c =>
      SheetOpen sheet_name
      :: match client_open c sheet_name with
         | None => [SheetAppendRows data_rows]
         | Some _ => []
         end
  end.

(** The channel takes the embed. *)
Definition accepts (ch : channel) (e : embed) : bool :=
  match channel_send ch e with
  | None => true
  | Some _ => false
  end.

(** The records the provider returned in this cycle. *)
Definition returned_records (cfg : config) (w : world) : list pyval :=
  match oanda_request w (OANDA_ACCOUNT_ID cfg) (INSTRUMENTS_STR cfg) with
  | inr response => price_items response
  | inl _ => []
  end.

(** A world for running the model: the answer of OANDA, and the text of
    the error of the spreadsheet append and of the channel send, if any. *)
Definition sample_world (now : datetime) (answer : string + pyval)
           (append_error send_error : option string) : world :=
  mkWorld (Some (mkChannel (fun _ => send_error)))
          (fun _ _ => answer)
          (Some (mkClient (fun _ => None) (fun _ => append_error)))
          now.

(** The four ways a cycle started on [fresh sheet] can go, with the
    state each leaves. *)
Inductive cycle_outcome (v : version) (cfg : config) (w : world)
          (sheet : list row) : (exn + unit) * state -> Prop :=
| no_channel st' :
    bot_get_channel w = None ->
    all_rows_for_gsheet st' = [] ->
    table_rows_for_discord st' = [] ->
    rows_written st' = 0 ->
    sent_embeds (events st') = [] ->
    sheet_calls (events st') = [] ->
    sheet1 st' = sheet ->
    delivered st' = [] ->
    cycle_outcome v cfg w sheet (inr tt, st')
| fetch_failed ch text st' :
    bot_get_channel w = Some ch ->
    oanda_request w (OANDA_ACCOUNT_ID cfg) (INSTRUMENTS_STR cfg) = inl text ->
    all_rows_for_gsheet st' = [] ->
    table_rows_for_discord st' = [] ->
    rows_written st' = 0 ->
    sent_embeds (events st') = [failure_embed v text] ->
    sheet_calls (events st') = [] ->
    sheet1 st' = sheet ->
    delivered st'
    = (if accepts ch (failure_embed v text) then [failure_embed v text] else []) ->
    cycle_outcome v cfg w sheet
      (match channel_send ch (failure_embed v text) with
       | None => inr tt
       | Some t => inl (LibraryError t)
       end, st')
| loop_aborted ch response e st' :
    bot_get_channel w = Some ch ->
    oanda_request w (OANDA_ACCOUNT_ID cfg) (INSTRUMENTS_STR cfg) = inr response ->
    fst (process_prices v response (requested v cfg (fresh sheet))) = inl e ->
    length (all_rows_for_gsheet st') <= length (table_rows_for_discord st') ->
    length (table_rows_for_discord st') <= length (price_items response) ->
    rows_written st' = 0 ->
    sent_embeds (events st') = [] ->
    sheet_calls (events st') = [] ->
    sheet1 st' = sheet ->
    delivered st' = [] ->
    cycle_outcome v cfg w sheet (inl e, st')
| reported ch response res st' :
    bot_get_channel w = Some ch ->
    oanda_request w (OANDA_ACCOUNT_ID cfg) (INSTRUMENTS_STR cfg) = inr response ->
    fst (process_prices v response (requested v cfg (fresh sheet))) = inr tt ->
    length (all_rows_for_gsheet st') <= length (table_rows_for_discord st') ->
    length (table_rows_for_discord st') <= length (price_items response) ->
    rows_written st'
    = (if append_succeeds (bot_gspread_client w) (GOOGLE_SHEET_NAME cfg)
            (all_rows_for_gsheet st')
       then length (all_rows_for_gsheet st') else 0) ->
    sent_embeds (events st')
    = [report_embed v cfg (utcnow w) (rows_written st') (all_rows_for_gsheet st')
         (table_rows_for_discord st')] ->
    sheet_calls (events st')
    = sink_calls (bot_gspread_client w) (GOOGLE_SHEET_NAME cfg)
        (all_rows_for_gsheet st') ->
    sheet1 st'
    = (sheet ++ if append_succeeds (bot_gspread_client w) (GOOGLE_SHEET_NAME cfg)
                     (all_rows_for_gsheet st')
                then all_rows_for_gsheet st' else [])%list ->
    delivered st'
    = (if accepts ch (report_embed v cfg (utcnow w) (rows_written st')
                        (all_rows_for_gsheet st') (table_rows_for_discord st'))
       then [report_embed v cfg (utcnow w) (rows_written st')
               (all_rows_for_gsheet st') (table_rows_for_discord st')]
       else []) ->
    (res = inr tt
     \/ v = Bot3
        /\ exists text,
          channel_send ch (report_embed v cfg (utcnow w) (rows_written st')
                             (all_rows_for_gsheet st') (table_rows_for_discord st'))
          = Some text
          /\ res = inl (LibraryError text)) ->
    cycle_outcome v cfg w sheet (res, st').

(** *** Start-up: [auth_gspread] and [on_ready] *)

(** What [Credentials.from_service_account_file] does: it returns the
    credentials, raises [FileNotFoundError], or raises something else; the
    text is [str(e)]. *)
Inductive credentials_outcome : Type :=
| CredentialsLoaded
| CredentialsFileNotFound (text : string)
| CredentialsError (text : string).

(** The Google libraries at start-up: the outcome of reading the file at a
    path, and of [gspread.authorize(creds)]. *)
Record google : Type := mkGoogle
  { from_service_account_file : string -> credentials_outcome;
    authorize : string + gspread_client }.

(** [auth_gspread()]: 2.1 has a branch for [FileNotFoundError] and logs the
    success; 3 has the one [except Exception]. *)
Definition auth_gspread (v : version) (SERVICE_ACCOUNT_FILE : string) (g : google)
  : M (option gspread_client) :=
  let failed text :=
    logging ERROR
      (match v with
       | Bot21 => "Google Sheets Authentication Error: "
       | Bot3 => "Google Sheets Auth Error: "
       end) (Some (LibraryError text)) ;;
    ret None in
  match from_service_account_file g SERVICE_ACCOUNT_FILE with
  | CredentialsLoaded =>
      match authorize g with
      | inr client =>
          logging_in v is_Bot21 INFO
            "Successfully authenticated with Google Sheets API." None ;;
          ret (Some client)
      | inl text => failed text
      end
  | CredentialsFileNotFound text =>
      match v with
      | Bot21 =>
          logging ERROR
            ("Google credentials file not found at: " ++ SERVICE_ACCOUNT_FILE) None ;;
          ret None
      | Bot3 => failed text
      end
  | CredentialsError text => failed text
  end.

(** The bot object as [on_ready] uses it: the value of [bot.gspread_client]
    and whether the task of [monitor_and_report] is launched and not
    completed. *)
Record bot : Type := mkBot
  { stored_client : option gspread_client;
    loop_running : bool }.

Definition already_launched : string :=
  "Task is already launched and is not completed.".

(** [monitor_and_report.start()]: discord.py raises [RuntimeError] with this
    text when the task is already running, and launches it otherwise. *)
Definition loop_start (b : bot) : exn + bot :=
  if loop_running b then inl (LibraryError already_launched)
  else inr (mkBot (stored_client b) true).

(** [on_ready()]: the log line, the assignment to [bot.gspread_client], the
    start of the loop. The assignment stays when [start()] raises. *)
Definition on_ready (v : version) (user_name SERVICE_ACCOUNT_FILE : string)
           (g : google) (b : bot) : state -> (exn + unit) * bot * state :=
  fun st =>
    match (logging INFO ("Bot logged in as " ++ user_name) None ;;
           auth_gspread v SERVICE_ACCOUNT_FILE g) st with
    | (inl e, st') => (inl e, b, st')
    | (inr client, st') =>
        let b' := mkBot client (loop_running b) in
        match loop_start b' with
        | inl e => (inl e, b', st')
        | inr started => (inr tt, started, st')
        end
    end.

(** The start-up authenticated. *)
Definition authenticates (SERVICE_ACCOUNT_FILE : string) (g : google)
  : option gspread_client :=
  match from_service_account_file g SERVICE_ACCOUNT_FILE, authorize g with
  | CredentialsLoaded, inr client => Some client
  | _, _ => None
  end.

(** Two states with the same two lists. *)
Definition same_lists (st1 st2 : state) : Prop :=
  all_rows_for_gsheet st1 = all_rows_for_gsheet st2
  /\ table_rows_for_discord st1 = table_rows_for_discord st2.

(** The warning the loop logs for a record it skips. *)
Definition parse_warning (ev : event) : bool :=
  match ev with
  | Log WARNING _ (Some _) => true
  | _ => false
  end.

(** *** The transformer on each shape of record *)

Ltac run_monad :=
  unfold transform, append_table_row, append_gsheet_row,
    set_table_rows_for_discord, set_all_rows_for_gsheet, logging, emit,
    modify, gets, bind, lift, ret, raise, subscript_key, subscript_index,
    method_ljust, method_rjust, method_replace, datetime_fromisoformat.

Ltac step :=
  cbv beta iota;
  cbn [nth_error events sheet1 delivered all_rows_for_gsheet
       table_rows_for_discord rows_written fst snd].

Lemma transform_valid r i b a status dt st :
  valid_record r i b a status dt ->
  transform r st
  = (inr tt,
     with_rows st (all_rows_for_gsheet st ++ [sheet_row i dt status b a])
               (table_rows_for_discord st ++ [display_row i b a])).
Proof.
  intros (fields & t & -> & (Hi & (eb & rb & Hb & Hpb) & (ea & ra & Ha & Hpa))
          & Ht & Hp & Hs).
  run_monad. rewrite Hi, Hb. step. rewrite Hpb, Ha. step. rewrite Hpa. step.
  rewrite Ht. step. rewrite Hp. step. rewrite Hs. reflexivity.
Qed.

Lemma transform_display_only fields i b a st :
  has_quote fields i b a ->
  lacks_stamp fields ->
  exists e,
    parse_errors Bot21 e = true
    /\ transform (PDict fields) st
       = (inl e,
          with_rows st (all_rows_for_gsheet st)
                    (table_rows_for_discord st ++ [display_row i b a])).
Proof.
  intros (Hi & (eb & rb & Hb & Hpb) & (ea & ra & Ha & Hpa)) Hstamp.
  destruct Hstamp as [Ht | t Ht Hp | t dt Ht Hp Hs].
  - exists KeyError. split; [reflexivity|].
    run_monad. rewrite Hi, Hb. step. rewrite Hpb, Ha. step. rewrite Hpa. step.
    rewrite Ht. reflexivity.
  - exists ValueError. split; [reflexivity|].
    run_monad. rewrite Hi, Hb. step. rewrite Hpb, Ha. step. rewrite Hpa. step.
    rewrite Ht. step. rewrite Hp. reflexivity.
  - exists KeyError. split; [reflexivity|].
    run_monad. rewrite Hi, Hb. step. rewrite Hpb, Ha. step. rewrite Hpa. step.
    rewrite Ht. step. rewrite Hp. step. rewrite Hs. reflexivity.
Qed.

Lemma transform_lacks_quote r st :
  lacks_quote r ->
  exists e, parse_errors Bot21 e = true /\ transform r st = (inl e, st).
Proof.
  intros [fields Hi | fields i Hi Hb | fields i b Hi (eb & rb & Hb & Hpb) Ha].
  - exists KeyError. split; [reflexivity|]. run_monad. rewrite Hi. reflexivity.
  - destruct Hb as [Hb | Hb | entry rest Hb Hp].
    + exists KeyError. split; [reflexivity|].
      run_monad. rewrite Hi, Hb. reflexivity.
    + exists IndexError. split; [reflexivity|].
      run_monad. rewrite Hi, Hb. reflexivity.
    + exists KeyError. split; [reflexivity|].
      run_monad. rewrite Hi, Hb. step. rewrite Hp. reflexivity.
  - destruct Ha as [Ha | Ha | entry rest Ha Hp].
    + exists KeyError. split; [reflexivity|].
      run_monad. rewrite Hi, Hb. step. rewrite Hpb, Ha. reflexivity.
    + exists IndexError. split; [reflexivity|].
      run_monad. rewrite Hi, Hb. step. rewrite Hpb, Ha. reflexivity.
    + exists KeyError. split; [reflexivity|].
      run_monad. rewrite Hi, Hb. step. rewrite Hpb, Ha. step. rewrite Hp.
      reflexivity.
Qed.

Lemma parse_errors_both v e : parse_errors Bot21 e = true -> parse_errors v e = true.
Proof. destruct v; [trivial | reflexivity]. Qed.

Lemma same_outside_refl st : same_outside st st.
Proof.
  repeat split. exists []. split; [symmetry; apply app_nil_r | reflexivity].
Qed.

Lemma same_outside_trans st1 st2 st3 :
  same_outside st1 st2 -> same_outside st2 st3 -> same_outside st1 st3.
Proof.
  intros (Hs & Hd & Hw & l1 & He1 & Hl1) (Hs' & Hd' & Hw' & l2 & He2 & Hl2).
  repeat split; try congruence.
  exists (l1 ++ l2)%list. split.
  - rewrite He2, He1. symmetry. apply app_assoc.
  - rewrite forallb_app, Hl1, Hl2. reflexivity.
Qed.

(** A record of one of the three shapes never stops the loop, and adds
    exactly its contribution. *)
Lemma process_record_contributes v r srows drows st :
  contributes r srows drows ->
  exists st',
    process_record v r st = (inr tt, st')
    /\ all_rows_for_gsheet st' = (all_rows_for_gsheet st ++ srows)%list
    /\ table_rows_for_discord st' = (table_rows_for_discord st ++ drows)%list
    /\ same_outside st st'.
Proof.
  intros [r' i b a status dt Hv | fields i b a Hq Hs | r' Hq].
  - eexists. unfold process_record, try_except.
    rewrite (transform_valid st Hv). split; [reflexivity|].
    repeat split. exists []. split; [symmetry; apply app_nil_r | reflexivity].
  - destruct (transform_display_only st Hq Hs) as (e & He & Ht).
    eexists. unfold process_record, try_except. rewrite Ht.
    rewrite (parse_errors_both v _ He). run_monad. split; [reflexivity|].
    step. rewrite app_nil_r. repeat split. eexists. split; reflexivity.
  - destruct (transform_lacks_quote st Hq) as (e & He & Ht).
    eexists. unfold process_record, try_except. rewrite Ht.
    rewrite (parse_errors_both v _ He). run_monad. split; [reflexivity|].
    step. rewrite !app_nil_r. repeat split. eexists. split; reflexivity.
Qed.

(** *** What the loop does on any input *)

Lemma grows_refl st : grows st st 0.
Proof.
  split; [apply same_outside_refl|]. exists [], [].
  rewrite !app_nil_r. repeat split; apply le_n.
Qed.

Lemma grows_trans st1 st2 st3 n m :
  grows st1 st2 n -> grows st2 st3 m -> grows st1 st3 (n + m).
Proof.
  intros (Ho & s1 & d1 & Ha & Ht & Hl & Hn) (Ho' & s2 & d2 & Ha' & Ht' & Hl' & Hm).
  split; [eapply same_outside_trans; eassumption|].
  exists (s1 ++ s2)%list, (d1 ++ d2)%list.
  rewrite Ha', Ha, Ht', Ht, <- !app_assoc, !length_app.
  repeat split; lia.
Qed.

Lemma grows_le st st' n m : grows st st' n -> n <= m -> grows st st' m.
Proof.
  intros (Ho & s & d & Ha & Ht & Hl & Hn) Hnm.
  split; [assumption|]. exists s, d. repeat split; try assumption; lia.
Qed.

Lemma same_outside_with_rows st all_rows table_rows :
  same_outside st (with_rows st all_rows table_rows).
Proof.
  repeat split. exists []. split; [symmetry; apply app_nil_r | reflexivity].
Qed.

Lemma grows_display st d :
  grows st (with_rows st (all_rows_for_gsheet st)
                      (table_rows_for_discord st ++ [d])) 1.
Proof.
  split; [apply same_outside_with_rows|]. exists [], [d]. cbn.
  rewrite app_nil_r. repeat split; lia.
Qed.

Lemma grows_both st s d :
  grows st (with_rows st (all_rows_for_gsheet st ++ [s])
                      (table_rows_for_discord st ++ [d])) 1.
Proof.
  split; [apply same_outside_with_rows|]. exists [s], [d]. cbn.
  repeat split; lia.
Qed.

Lemma grows_log st st' n lvl message error :
  grows st st' n ->
  grows st (mkState (events st' ++ [Log lvl message error]) (sheet1 st')
                    (delivered st') (all_rows_for_gsheet st')
                    (table_rows_for_discord st') (rows_written st')) n.
Proof.
  intros H. replace n with (n + 0) by lia.
  eapply grows_trans; [exact H|].
  split.
  - repeat split. eexists. split; reflexivity.
  - exists [], []. cbn. rewrite !app_nil_r. repeat split; lia.
Qed.

Lemma transform_grows r st : grows st (snd (transform r st)) 1.
Proof.
  run_monad.
  repeat (step; match goal with
                | |- context [match ?x with _ => _ end] => destruct x
                end);
    step;
    first [ apply grows_le with (n := 0); [apply grows_refl | lia]
          | apply grows_display
          | apply grows_both ].
Qed.

Lemma process_record_grows v r st : grows st (snd (process_record v r st)) 1.
Proof.
  unfold process_record, try_except.
  pose proof (transform_grows r st) as H.
  destruct (transform r st) as [[e | []] st']; cbn [snd] in *; [|assumption].
  destruct (parse_errors v e); [|assumption].
  run_monad. step. apply grows_log. assumption.
Qed.

Lemma for_each_grows v items st :
  grows st (snd (for_each items (process_record v) st)) (length items).
Proof.
  revert st. induction items as [|r rest IH]; intros st.
  - apply grows_refl.
  - cbn [for_each length]. unfold bind.
    pose proof (process_record_grows v r st) as H.
    destruct (process_record v r st) as [[e | []] st']; cbn [snd] in *.
    + eapply grows_le; [exact H | lia].
    + change (S (length rest)) with (1 + length rest).
      eapply grows_trans; [exact H | apply IH].
Qed.

(** With [except Exception] no record stops the loop. *)
Lemma process_record_Bot3_returns r st :
  fst (process_record Bot3 r st) = inr tt.
Proof.
  unfold process_record, try_except.
  destruct (transform r st) as [[e | []] st']; reflexivity.
Qed.

Lemma for_each_Bot3_returns items st :
  fst (for_each items (process_record Bot3) st) = inr tt.
Proof.
  revert st. induction items as [|r rest IH]; intros st; [reflexivity|].
  cbn [for_each]. unfold bind.
  pose proof (process_record_Bot3_returns r st) as H.
  destruct (process_record Bot3 r st) as [[e | []] st']; cbn [fst] in H.
  - discriminate.
  - apply IH.
Qed.

(** A batch of records of the three shapes: the loop finishes and the
    lists hold the contributions, in order. *)
Lemma for_each_contributes v items parts st :
  Forall2 (fun r p => contributes r (fst p) (snd p)) items parts ->
  exists st',
    for_each items (process_record v) st = (inr tt, st')
    /\ all_rows_for_gsheet st'
       = (all_rows_for_gsheet st ++ concat (map fst parts))%list
    /\ table_rows_for_discord st'
       = (table_rows_for_discord st ++ concat (map snd parts))%list
    /\ same_outside st st'.
Proof.
  intros H. revert st.
  induction H as [|r p items parts Hr _ IH]; intros st.
  - exists st. cbn. rewrite !app_nil_r.
    repeat split; try reflexivity.
    exists []. split; [symmetry; apply app_nil_r | reflexivity].
  - destruct (process_record_contributes v st Hr) as (st1 & E1 & A1 & T1 & O1).
    destruct (IH st1) as (st2 & E2 & A2 & T2 & O2).
    exists st2. cbn [for_each map concat]. unfold bind. rewrite E1, E2.
    split; [reflexivity|].
    rewrite A2, A1, T2, T1, <- !app_assoc.
    repeat split; try reflexivity.
    all: try (destruct O1 as (? & ? & ? & _), O2 as (? & ? & ? & _); congruence).
    destruct (same_outside_trans O1 O2) as (_ & _ & _ & H'). exact H'.
Qed.

(** *** The sink *)

Lemma sheet_calls_app l1 l2 :
  sheet_calls (l1 ++ l2) = (sheet_calls l1 ++ sheet_calls l2)%list.
Proof.
  induction l1 as [|[] l1 IH]; cbn; rewrite ?IH; reflexivity.
Qed.

Lemma sent_embeds_app l1 l2 :
  sent_embeds (l1 ++ l2) = (sent_embeds l1 ++ sent_embeds l2)%list.
Proof.
  induction l1 as [|[] l1 IH]; cbn; rewrite ?IH; reflexivity.
Qed.

Lemma sink_calls_None sheet_name data_rows :
  sink_calls None sheet_name data_rows = [].
Proof. destruct data_rows; reflexivity. Qed.

Lemma sink_runs v client sheet_name data_rows st :
  exists n st',
    append_bulk_to_sheet v client sheet_name data_rows st = (inr n, st')
    /\ n = (if append_succeeds client sheet_name data_rows
            then length data_rows else 0)
    /\ sheet1 st' = (sheet1 st ++ if append_succeeds client sheet_name data_rows
                                  then data_rows else [])%list
    /\ delivered st' = delivered st
    /\ all_rows_for_gsheet st' = all_rows_for_gsheet st
    /\ table_rows_for_discord st' = table_rows_for_discord st
    /\ rows_written st' = rows_written st
    /\ sent_embeds (events st') = sent_embeds (events st)
    /\ sheet_calls (events st')
       = (sheet_calls (events st) ++ sink_calls client sheet_name data_rows)%list.
Proof.
  unfold append_bulk_to_sheet, append_succeeds, sink_calls.
  destruct data_rows as [|r rows].
  - exists 0, st. split; [reflexivity|].
    destruct client as [c|];
      [destruct (client_open c sheet_name), (sheet_append_rows c [])|];
      cbn; rewrite !app_nil_r; repeat split; reflexivity.
  - unfold try_except, open_sheet1, append_rows, logging_in.
    destruct client as [c|].
    + run_monad. step.
      destruct (client_open c sheet_name) as [t|]; step.
      * do 2 eexists. split; [reflexivity|]. step. rewrite app_nil_r.
        rewrite !sent_embeds_app, !sheet_calls_app. cbn. rewrite ?app_nil_r, <- ?app_assoc.
        repeat split; reflexivity.
      * destruct (sheet_append_rows c (r :: rows)) as [t|]; step.
        -- do 2 eexists. split; [reflexivity|]. step. rewrite app_nil_r.
           rewrite !sent_embeds_app, !sheet_calls_app. cbn. rewrite ?app_nil_r, <- ?app_assoc.
           repeat split; reflexivity.
        -- destruct v; cbn [is_Bot21]; step.
           ++ do 2 eexists. split; [reflexivity|]. step.
              rewrite !sent_embeds_app, !sheet_calls_app. cbn. rewrite ?app_nil_r, <- ?app_assoc.
              repeat split; reflexivity.
           ++ do 2 eexists. split; [reflexivity|]. step.
              rewrite !sent_embeds_app, !sheet_calls_app. cbn. rewrite ?app_nil_r, <- ?app_assoc.
              repeat split; reflexivity.
    + run_monad. step. do 2 eexists. split; [reflexivity|]. step.
      rewrite app_nil_r, !sent_embeds_app, !sheet_calls_app. cbn. rewrite ?app_nil_r, <- ?app_assoc.
      repeat split; reflexivity.
Qed.

(** *** The stages of a cycle *)

Lemma logs_send_nothing logs :
  forallb log_event logs = true ->
  sent_embeds logs = [] /\ sheet_calls logs = [].
Proof.
  induction logs as [|[] logs IH]; cbn; intros H;
    try discriminate; auto.
Qed.

Lemma same_outside_trace st st' :
  same_outside st st' ->
  sent_embeds (events st') = sent_embeds (events st)
  /\ sheet_calls (events st') = sheet_calls (events st).
Proof.
  intros (_ & _ & _ & logs & -> & Hl).
  destruct (logs_send_nothing _ Hl) as [E1 E2].
  rewrite sent_embeds_app, sheet_calls_app, E1, E2, !app_nil_r. split; reflexivity.
Qed.

Lemma requested_frame v cfg st :
  sheet1 (requested v cfg st) = sheet1 st
  /\ delivered (requested v cfg st) = delivered st
  /\ all_rows_for_gsheet (requested v cfg st) = all_rows_for_gsheet st
  /\ table_rows_for_discord (requested v cfg st) = table_rows_for_discord st
  /\ rows_written (requested v cfg st) = rows_written st
  /\ sent_embeds (events (requested v cfg st)) = sent_embeds (events st)
  /\ sheet_calls (events (requested v cfg st)) = sheet_calls (events st).
Proof.
  unfold requested, logging_in. destruct v; cbn [is_Bot21]; run_monad; step;
    rewrite ?sent_embeds_app, ?sheet_calls_app; cbn; rewrite ?app_nil_r;
    repeat split; reflexivity.
Qed.

Lemma process_prices_grows v response st :
  grows (with_rows st [] []) (snd (process_prices v response st))
        (length (price_items response)).
Proof.
  unfold process_prices, price_items.
  unfold set_all_rows_for_gsheet, set_table_rows_for_discord, modify, bind, lift.
  step.
  destruct (method_get response "prices" (PList [])) as [e | prices]; step.
  - apply grows_refl.
  - destruct (iterate prices) as [e | items]; step.
    + apply grows_refl.
    + apply (for_each_grows v items (with_rows st [] [])).
Qed.

Lemma send_runs ch e st :
  exists st',
    send ch e st
    = (match channel_send ch e with
       | None => inr tt
       | Some text => inl (LibraryError text)
       end, st')
    /\ sent_embeds (events st') = (sent_embeds (events st) ++ [e])%list
    /\ sheet_calls (events st') = sheet_calls (events st)
    /\ delivered st' = (delivered st ++ if accepts ch e then [e] else [])%list
    /\ sheet1 st' = sheet1 st
    /\ all_rows_for_gsheet st' = all_rows_for_gsheet st
    /\ table_rows_for_discord st' = table_rows_for_discord st
    /\ rows_written st' = rows_written st.
Proof.
  unfold send, accepts. run_monad. step.
  destruct (channel_send ch e) as [text|]; step;
    (eexists; split; [reflexivity|]); step;
    rewrite sent_embeds_app, sheet_calls_app; cbn; rewrite ?app_nil_r;
    repeat split; reflexivity.
Qed.

Lemma send_report_runs v ch e st :
  exists res st',
    send_report v ch e st = (res, st')
    /\ (res = inr tt \/ v = Bot3 /\ exists text,
           channel_send ch e = Some text /\ res = inl (LibraryError text))
    /\ sent_embeds (events st') = (sent_embeds (events st) ++ [e])%list
    /\ sheet_calls (events st') = sheet_calls (events st)
    /\ delivered st' = (delivered st ++ if accepts ch e then [e] else [])%list
    /\ sheet1 st' = sheet1 st
    /\ all_rows_for_gsheet st' = all_rows_for_gsheet st
    /\ table_rows_for_discord st' = table_rows_for_discord st
    /\ rows_written st' = rows_written st.
Proof.
  destruct (send_runs ch e st) as (st1 & E & Hs & Hc & Hd & H1 & Ha & Ht & Hw).
  destruct v; unfold send_report.
  - unfold try_except, bind. rewrite E.
    destruct (channel_send ch e) as [text|]; run_monad; step;
      (do 2 eexists; split; [reflexivity|]); step;
      rewrite sent_embeds_app, sheet_calls_app; cbn; rewrite ?app_nil_r;
      repeat split; auto.
  - rewrite E. do 2 eexists. split; [reflexivity|].
    split; [|repeat split; assumption].
    destruct (channel_send ch e) as [text|]; [right | left; reflexivity].
    split; [reflexivity|]. exists text. split; reflexivity.
Qed.

(** *** A whole cycle *)

Lemma cycle_with_channel v cfg w ch st :
  bot_get_channel w = Some ch ->
  monitor_and_report v cfg w st
  = match oanda_request w (OANDA_ACCOUNT_ID cfg) (INSTRUMENTS_STR cfg) with
    | inl text => on_fetch_error v ch text (requested v cfg st)
    | inr response => on_response v cfg w ch response (requested v cfg st)
    end.
Proof.
  intros Hch. unfold monitor_and_report, requested. rewrite Hch.
  destruct v, (oanda_request w (OANDA_ACCOUNT_ID cfg) (INSTRUMENTS_STR cfg));
    reflexivity.
Qed.

Lemma on_response_aborted v cfg w ch response st e st1 :
  process_prices v response st = (inl e, st1) ->
  on_response v cfg w ch response st = (inl e, st1).
Proof.
  intros E. unfold on_response. unfold bind at 1. rewrite E. reflexivity.
Qed.

(** The cycle once the loop over the records has finished. *)
Lemma on_response_reports v cfg w ch response st st1 :
  process_prices v response st = (inr tt, st1) ->
  let all_rows := all_rows_for_gsheet st1 in
  let table_rows := table_rows_for_discord st1 in
  let ok := append_succeeds (bot_gspread_client w) (GOOGLE_SHEET_NAME cfg) all_rows in
  let written := if ok then length all_rows else 0 in
  let report := report_embed v cfg (utcnow w) written all_rows table_rows in
  exists res st',
    on_response v cfg w ch response st = (res, st')
    /\ (res = inr tt \/ v = Bot3 /\ exists text,
           channel_send ch report = Some text /\ res = inl (LibraryError text))
    /\ all_rows_for_gsheet st' = all_rows
    /\ table_rows_for_discord st' = table_rows
    /\ rows_written st' = written
    /\ sent_embeds (events st') = (sent_embeds (events st1) ++ [report])%list
    /\ sheet_calls (events st')
       = (sheet_calls (events st1)
          ++ sink_calls (bot_gspread_client w) (GOOGLE_SHEET_NAME cfg) all_rows)%list
    /\ sheet1 st' = (sheet1 st1 ++ if ok then all_rows else [])%list
    /\ delivered st' = (delivered st1 ++ if accepts ch report then [report] else [])%list.
Proof.
  intros E all_rows table_rows ok written report.
  unfold on_response. unfold bind at 1. rewrite E.
  unfold bind at 1. unfold gets at 1. step. fold all_rows.
  assert (exists n st2,
            match bot_gspread_client w with
            | Some c => append_bulk_to_sheet v (Some c) (GOOGLE_SHEET_NAME cfg) all_rows
            | None => ret 0
            end st1 = (inr n, st2)
            /\ n = written
            /\ sheet1 st2 = (sheet1 st1 ++ if ok then all_rows else [])%list
            /\ delivered st2 = delivered st1
            /\ all_rows_for_gsheet st2 = all_rows
            /\ table_rows_for_discord st2 = table_rows
            /\ rows_written st2 = rows_written st1
            /\ sent_embeds (events st2) = sent_embeds (events st1)
            /\ sheet_calls (events st2)
               = (sheet_calls (events st1)
                  ++ sink_calls (bot_gspread_client w) (GOOGLE_SHEET_NAME cfg)
                       all_rows)%list)
    as (n & st2 & E2 & -> & H1 & Hd & Ha & Ht & Hw & Hs & Hc).
  { subst written ok. destruct (bot_gspread_client w) as [c|].
    - apply sink_runs.
    - exists 0, st1. cbn. rewrite sink_calls_None, !app_nil_r.
      repeat split; reflexivity. }
  unfold bind at 1. rewrite E2.
  unfold bind at 1, set_rows_written, modify. step.
  unfold bind at 1, gets. step. rewrite Ht.
  match goal with
  | |- context [send_report v ch ?e ?s] =>
      destruct (send_report_runs v ch e s)
        as (res & st' & E3 & Hres & Hs' & Hc' & Hd' & H1' & Ha' & Ht' & Hw')
  end.
  cbn [events sheet1 delivered all_rows_for_gsheet table_rows_for_discord
       rows_written] in *.
  exists res, st'. split; [exact E3|].
  split; [exact Hres|].
  subst report.
  repeat split; congruence.
Qed.

Lemma process_record_lists v r st :
  all_rows_for_gsheet (snd (process_record v r st))
  = all_rows_for_gsheet (snd (transform r st))
  /\ table_rows_for_discord (snd (process_record v r st))
     = table_rows_for_discord (snd (transform r st)).
Proof.
  unfold process_record, try_except.
  destruct (transform r st) as [[e | []] st']; [|split; reflexivity].
  destruct (parse_errors v e); split; reflexivity.
Qed.

(** Once the quote is read the DisplayRow is in the table, whatever the
    rest of the record holds. *)
Lemma transform_quote fields i b a st :
  has_quote fields i b a ->
  table_rows_for_discord (snd (transform (PDict fields) st))
  = (table_rows_for_discord st ++ [display_row i b a])%list.
Proof.
  intros (Hi & (eb & rb & Hb & Hpb) & (ea & ra & Ha & Hpa)).
  run_monad. rewrite Hi, Hb. step. rewrite Hpb, Ha. step. rewrite Hpa. step.
  repeat (step; match goal with
                | |- context [match ?x with _ => _ end] => destruct x
                end);
    reflexivity.
Qed.

Lemma length_spaces n : String.length (spaces n) = n.
Proof. induction n as [|n IH]; cbn; [|rewrite IH]; reflexivity. Qed.

Lemma length_string_app s1 s2 :
  String.length (s1 ++ s2) = String.length s1 + String.length s2.
Proof. induction s1 as [|c s1 IH]; cbn; [|rewrite IH]; reflexivity. Qed.

Lemma length_repeat_char c n : String.length (repeat_char c n) = n.
Proof. induction n as [|n IH]; cbn; [|rewrite IH]; reflexivity. Qed.

Lemma length_ljust s width : String.length (ljust s width) = Nat.max width (String.length s).
Proof. unfold ljust. rewrite length_string_app, length_spaces. lia. Qed.

Lemma length_rjust s width : String.length (rjust s width) = Nat.max width (String.length s).
Proof. unfold rjust. rewrite length_string_app, length_spaces. lia. Qed.

Lemma on_fetch_error_runs v ch text st :
  exists st',
    on_fetch_error v ch text st
    = (match channel_send ch (failure_embed v text) with
       | None => inr tt
       | Some t => inl (LibraryError t)
       end, st')
    /\ sent_embeds (events st') = (sent_embeds (events st) ++ [failure_embed v text])%list
    /\ sheet_calls (events st') = sheet_calls (events st)
    /\ delivered st'
       = (delivered st ++ if accepts ch (failure_embed v text)
                          then [failure_embed v text] else [])%list
    /\ sheet1 st' = sheet1 st
    /\ all_rows_for_gsheet st' = all_rows_for_gsheet st
    /\ table_rows_for_discord st' = table_rows_for_discord st
    /\ rows_written st' = rows_written st.
Proof.
  unfold on_fetch_error, logging_in.
  destruct v; cbn [is_Bot21]; unfold bind at 1; run_monad; step.
  - match goal with
    | |- context [send ch ?e ?s] =>
        destruct (send_runs ch e s) as (st' & E & Hs & Hc & Hd & H1 & Ha & Ht & Hw)
    end.
    cbn [events sheet1 delivered all_rows_for_gsheet table_rows_for_discord
         rows_written] in *.
    exists st'. split; [exact E|].
    rewrite sent_embeds_app in Hs. rewrite sheet_calls_app in Hc.
    cbn in Hs, Hc. rewrite app_nil_r in Hs, Hc.
    repeat split; assumption.
  - apply send_runs.
Qed.

Lemma cycle_outcome_total v cfg w sheet :
  cycle_outcome v cfg w sheet (monitor_and_report v cfg w (fresh sheet)).
Proof.
  destruct (bot_get_channel w) as [ch|] eqn:Hch.
  - rewrite cycle_with_channel with (ch := ch) by exact Hch.
    destruct (requested_frame v cfg (fresh sheet))
      as (R1 & Rd & Ra & Rt & Rw & Rs & Rc).
    cbn [fresh events sheet1 delivered all_rows_for_gsheet table_rows_for_discord
         rows_written sent_embeds sheet_calls] in R1, Rd, Ra, Rt, Rw, Rs, Rc.
    destruct (oanda_request w (OANDA_ACCOUNT_ID cfg) (INSTRUMENTS_STR cfg))
      as [text | response] eqn:Hreq.
    + destruct (on_fetch_error_runs v ch text (requested v cfg (fresh sheet)))
        as (st' & -> & Hs & Hc & Hd & H1 & Ha & Ht & Hw).
      rewrite Rs in Hs. rewrite Rd in Hd.
      eapply fetch_failed; try eassumption; congruence.
    + pose proof (process_prices_grows v response (requested v cfg (fresh sheet)))
        as ((G1 & Gd & Gw & logs & Ge & Gl) & srows & drows & Gs & Gt & Hle & Hn).
      destruct (logs_send_nothing _ Gl) as [L1 L2].
      cbn [with_rows events sheet1 delivered all_rows_for_gsheet
           table_rows_for_discord rows_written app] in *.
      destruct (process_prices v response (requested v cfg (fresh sheet)))
        as [[e | []] st1] eqn:E1; cbn [snd] in *.
      * rewrite on_response_aborted with (e := e) (st1 := st1) by exact E1.
        eapply loop_aborted; try eassumption;
          first [ rewrite E1; reflexivity
                | reflexivity
                | rewrite Gs, Gt; exact Hle
                | rewrite Gt; exact Hn
                | rewrite Ge, sent_embeds_app, L1, Rs; reflexivity
                | rewrite Ge, sheet_calls_app, L2, Rc; reflexivity
                | congruence ].
      * destruct (@on_response_reports v cfg w ch response _ st1 E1)
          as (res & st' & -> & Hres & Ha' & Ht' & Hw' & Hs' & Hc' & H1' & Hd').
        rewrite <- Ha', <- Ht' in *. rewrite <- Hw' in *.
        rewrite Ge, sent_embeds_app, L1, Rs in Hs'.
        rewrite Ge, sheet_calls_app, L2, Rc in Hc'.
        rewrite G1, R1 in H1'. rewrite Gd, Rd in Hd'.
        cbn [app] in Hs', Hc', Hd'.
        eapply reported; try eassumption;
          first [ rewrite E1; reflexivity
                | reflexivity
                | rewrite Gs, Gt; exact Hle
                | rewrite Gt; exact Hn
                | symmetry; exact Hw' ].
  - unfold monitor_and_report. rewrite Hch.
    destruct v; run_monad; step; apply no_channel; auto.
Qed.

Lemma process_prices_Bot3_returns response prices items st :
  method_get response "prices" (PList []) = inr prices ->
  iterate prices = inr items ->
  fst (process_prices Bot3 response st) = inr tt.
Proof.
  intros Hget Hiter. unfold process_prices.
  unfold set_all_rows_for_gsheet, set_table_rows_for_discord, modify, bind, lift.
  step. rewrite Hget. step. rewrite Hiter. step.
  apply for_each_Bot3_returns.
Qed.

(** ** The claims *)

(** C2. A valid record (instrument symbol, first bid price, first ask
    price, status, timestamp that parses) makes the loop body return
    normally with exactly one SheetRow and one DisplayRow added; the
    SheetRow is [instrument, formatted time, status, bid, ask], in that
    order. Both versions. *)
Theorem C2_valid_record_one_row_each v r i b a status dt st :
  valid_record r i b a status dt ->
  process_record v r st
  = (inr tt,
     with_rows st
       (all_rows_for_gsheet st
        ++ [[PStr i; PStr (strftime dt); status; PStr b; PStr a]])%list
       (table_rows_for_discord st ++ [display_row i b a])%list).
Proof.
  intros Hv. unfold process_record, try_except.
  rewrite (transform_valid st Hv). reflexivity.
Qed.

(** C3, amended. In a batch whose records are valid or defective (a
    required key missing, a first bid or ask entry missing, a timestamp
    that does not parse), the loop finishes; every valid record adds its
    SheetRow and its DisplayRow, in batch order; a defective record adds no
    SheetRow; it adds no DisplayRow either when the defect is in the
    instrument, the bids or the asks, and adds its DisplayRow when only
    the time or the status is defective. Both versions. *)
Theorem C3_defective_records_are_isolated v resp items parts st :
  dict_get resp "prices" = Some (PList items) ->
  Forall2 (fun r p => contributes r (fst p) (snd p)) items parts ->
  exists st',
    process_prices v (PDict resp) st = (inr tt, st')
    /\ all_rows_for_gsheet st' = concat (map fst parts)
    /\ table_rows_for_discord st' = concat (map snd parts)
    /\ same_outside st st'.
Proof.
  intros Hp Hparts.
  destruct (for_each_contributes v (with_rows st [] []) Hparts)
    as (st' & E & Ha & Ht & Ho).
  exists st'. unfold process_prices.
  unfold set_all_rows_for_gsheet, set_table_rows_for_discord, modify, bind, lift,
    method_get, iterate.
  step. rewrite Hp. step. split; [exact E|].
  split; [exact Ha|]. split; [exact Ht|]. exact Ho.
Qed.

(** C8, amended. The DisplayRow of a record with a quote is the instrument
    followed by the spaces that bring it to ten characters (none when it
    is longer: it is never cut), then "| ", the bid preceded by the spaces
    that bring it to ten characters, " | ", and the ask likewise; the
    header is Instrument (width 10), BID and ASK (width 11) with the same
    separators, and the separator line is as many dashes as the header has
    characters. *)
Theorem C8_display_format v fields i b a st :
  has_quote fields i b a ->
  table_rows_for_discord (snd (process_record v (PDict fields) st))
  = (table_rows_for_discord st
     ++ [((i ++ spaces (10 - String.length i)) ++ "| "
          ++ (spaces (10 - String.length b) ++ b) ++ " | "
          ++ (spaces (10 - String.length a) ++ a))%string])%list
  /\ String.length (ljust i 10) = Nat.max 10 (String.length i)
  /\ header = "Instrument|         BID |         ASK"
  /\ separator = "-------------------------------------"
  /\ String.length separator = String.length header.
Proof.
  intros Hq. split.
  - destruct (process_record_lists v (PDict fields) st) as [_ ->].
    apply (transform_quote st Hq).
  - split; [apply length_ljust|]. repeat split; reflexivity.
Qed.

(** C10. At the end of every cycle there are at least as many DisplayRows
    as SheetRows; a record with an instrument, a first bid and a first ask
    whose timestamp is missing or does not parse, or whose status is
    missing, adds a DisplayRow and no SheetRow. Both versions. *)
Theorem C10_display_rows_at_least_sheet_rows v :
  (forall cfg w sheet,
      length (all_rows_for_gsheet (snd (monitor_and_report v cfg w (fresh sheet))))
      <= length (table_rows_for_discord
                   (snd (monitor_and_report v cfg w (fresh sheet)))))
  /\ (forall fields i b a st,
         has_quote fields i b a ->
         lacks_stamp fields ->
         exists st',
           process_record v (PDict fields) st = (inr tt, st')
           /\ all_rows_for_gsheet st' = all_rows_for_gsheet st
           /\ table_rows_for_discord st'
              = (table_rows_for_discord st ++ [display_row i b a])%list).
Proof.
  split.
  - intros cfg w sheet.
    destruct (cycle_outcome_total v cfg w sheet)
      as [st' _ Ha Ht | ch text st' _ _ Ha Ht | ch response e st' _ _ _ Hle
          | ch response res st' _ _ _ Hle];
      cbn [snd]; rewrite ?Ha, ?Ht; auto.
  - intros fields i b a st Hq Hs.
    destruct (process_record_contributes v st (contributes_display_only Hq Hs))
      as (st' & E & Ha & Ht & _).
    exists st'. rewrite app_nil_r in Ha. auto.
Qed.

(** C4. [append_bulk_to_sheet] never raises. On an empty list it returns 0
    and does nothing at all (no call, no log). When its two calls go through
    it returns the number of rows, after one [SheetOpen] and one
    [SheetAppendRows] with all the rows, which are then at the end of the
    sheet in order. When a call fails it returns 0 and the sheet is as it
    was. Both versions. *)
Theorem C4_sink_contract v client sheet_name data_rows st :
  exists n st',
    append_bulk_to_sheet v client sheet_name data_rows st = (inr n, st')
    /\ (data_rows = [] -> n = 0 /\ st' = st)
    /\ (data_rows <> [] ->
        append_succeeds client sheet_name data_rows = true ->
        n = length data_rows
        /\ sheet1 st' = (sheet1 st ++ data_rows)%list
        /\ sheet_calls (events st')
           = (sheet_calls (events st)
              ++ [SheetOpen sheet_name; SheetAppendRows data_rows])%list)
    /\ (append_succeeds client sheet_name data_rows = false ->
        n = 0 /\ sheet1 st' = sheet1 st).
Proof.
  destruct (sink_runs v client sheet_name data_rows st)
    as (n & st' & E & Hn & H1 & _ & _ & _ & _ & _ & Hc).
  exists n, st'. split; [exact E|]. split; [|split].
  - intros ->. cbn in E. injection E as <- <-. split; reflexivity.
  - intros Hne Hok. rewrite Hok in Hn, H1. repeat split; try assumption.
    rewrite Hc. f_equal. unfold sink_calls, append_succeeds in *.
    destruct data_rows as [|r rows]; [contradiction|].
    destruct client as [c|]; [|discriminate].
    destruct (client_open c sheet_name); [discriminate | reflexivity].
  - intros Hko. rewrite Hko in Hn, H1. rewrite app_nil_r in H1. auto.
Qed.

(** C5, amended. At the end of every cycle quotes_parsed is at most the
    number of records the provider returned, hence at most
    instruments_requested whenever the provider returned no more records
    than instruments were requested; rows_written is at most quotes_parsed,
    and is 0 whenever the sink fails or the list of parsed rows is empty.
    Both versions. *)
Theorem C5_counters v cfg w sheet :
  length (all_rows_for_gsheet (snd (monitor_and_report v cfg w (fresh sheet))))
  <= length (returned_records cfg w)
  /\ (length (returned_records cfg w) <= length (INSTRUMENTS_LIST cfg) ->
      length (all_rows_for_gsheet (snd (monitor_and_report v cfg w (fresh sheet))))
      <= length (INSTRUMENTS_LIST cfg))
  /\ rows_written (snd (monitor_and_report v cfg w (fresh sheet)))
     <= length (all_rows_for_gsheet (snd (monitor_and_report v cfg w (fresh sheet))))
  /\ (append_succeeds (bot_gspread_client w) (GOOGLE_SHEET_NAME cfg)
        (all_rows_for_gsheet (snd (monitor_and_report v cfg w (fresh sheet)))) = false
      \/ all_rows_for_gsheet (snd (monitor_and_report v cfg w (fresh sheet))) = []
      -> rows_written (snd (monitor_and_report v cfg w (fresh sheet))) = 0).
Proof.
  assert (Hparsed :
            length (all_rows_for_gsheet (snd (monitor_and_report v cfg w (fresh sheet))))
            <= length (returned_records cfg w)).
  { unfold returned_records.
    destruct (cycle_outcome_total v cfg w sheet)
      as [st' _ Ha | ch text st' _ _ Ha
          | ch response e st' _ Hreq _ Hle Hn
          | ch response res st' _ Hreq _ Hle Hn];
      cbn [snd]; try rewrite Hreq; try rewrite Ha; cbn [length]; lia. }
  split; [exact Hparsed|]. split; [intros Hret; lia|].
  destruct (cycle_outcome_total v cfg w sheet)
    as [st' _ _ _ Hw | ch text st' _ _ _ _ Hw
        | ch response e st' _ _ _ _ _ Hw
        | ch response res st' _ _ _ _ _ Hw];
    cbn [snd]; rewrite Hw.
  - split; [lia | reflexivity].
  - split; [lia | reflexivity].
  - split; [lia | reflexivity].
  - split.
    + destruct (append_succeeds _ _ _); lia.
    + intros [Hf | He].
      * rewrite Hf. reflexivity.
      * rewrite He. destruct (append_succeeds _ _ []); reflexivity.
Qed.

(** The short circuit of a failed request. When the request to OANDA raises,
    the cycle does exactly this: the request, the log line (2.1), one send
    of the minimal failure embed, and nothing after it; the two lists stay
    empty, no call is made to the spreadsheet, whose content is untouched,
    and no full report is built. When the channel takes that embed the body
    returns normally and the loop sleeps until its next iteration. Both
    versions. *)
Lemma fetch_failure_short_circuits v cfg w ch text sheet :
  bot_get_channel w = Some ch ->
  oanda_request w (OANDA_ACCOUNT_ID cfg) (INSTRUMENTS_STR cfg) = inl text ->
  events (snd (monitor_and_report v cfg w (fresh sheet)))
  = ((if is_Bot21 v
      then [Log INFO ("Starting data fetch for "
                      ++ str_of_nat (length (INSTRUMENTS_LIST cfg))
                      ++ " instruments.") None]
      else [])
     ++ [PricingRequest (OANDA_ACCOUNT_ID cfg) (INSTRUMENTS_STR cfg)]
     ++ (if is_Bot21 v
         then [Log ERROR "OANDA API request failed: " (Some (LibraryError text))]
         else [])
     ++ [ChannelSend
           (mkEmbed "OANDA API Failure" (embed_description (failure_embed v text))
                    Red None [] None)])%list
  /\ all_rows_for_gsheet (snd (monitor_and_report v cfg w (fresh sheet))) = []
  /\ table_rows_for_discord (snd (monitor_and_report v cfg w (fresh sheet))) = []
  /\ sheet_calls (events (snd (monitor_and_report v cfg w (fresh sheet)))) = []
  /\ sheet1 (snd (monitor_and_report v cfg w (fresh sheet))) = sheet
  /\ (accepts ch (failure_embed v text) = true ->
      fst (monitor_and_report v cfg w (fresh sheet)) = inr tt
      /\ delivered (snd (monitor_and_report v cfg w (fresh sheet)))
         = [failure_embed v text]
      /\ fst (loop_iteration v cfg w (fresh sheet))
         = SleepUntilNextIteration (CHECK_INTERVAL_SECONDS cfg)).
Proof.
  intros Hch Hreq.
  unfold loop_iteration, accepts.
  rewrite cycle_with_channel with (ch := ch) by exact Hch. rewrite Hreq.
  unfold on_fetch_error, requested, send, logging_in.
  destruct v; cbn [is_Bot21]; run_monad; step;
    (destruct (channel_send ch _) as [t|]; step;
     repeat split; try reflexivity; intros; discriminate).
Qed.

(** C9, amended. In a cycle whose request returned and whose loop over the
    records finished, one report is sent. When at least one DisplayRow was
    produced (which happens with zero parsed quotes too, see C10) its body
    is the field "Live Prices": a code block with the header, the separator
    and the DisplayRows, one per line. When no DisplayRow was produced the
    report has no such field and, in 2.1, carries the message "No price
    data was returned from the API.". *)
Theorem C9_report_body v cfg w ch response sheet :
  bot_get_channel w = Some ch ->
  oanda_request w (OANDA_ACCOUNT_ID cfg) (INSTRUMENTS_STR cfg) = inr response ->
  fst (process_prices v response (requested v cfg (fresh sheet))) = inr tt ->
  exists report,
    sent_embeds (events (snd (monitor_and_report v cfg w (fresh sheet)))) = [report]
    /\ embed_title report = "OANDA Price Report"
    /\ match table_rows_for_discord (snd (monitor_and_report v cfg w (fresh sheet))) with
       | [] =>
           ~ In "Live Prices" (map field_name (embed_fields report))
           /\ (v = Bot21 ->
               embed_description report
               = Some "No price data was returned from the API.")
       | rows =>
           hd_error (embed_fields report)
           = Some (mkField "Live Prices"
                     ("```" ++ newline ++ header ++ newline ++ separator ++ newline
                      ++ join newline rows ++ newline ++ "```") false)
           /\ embed_description report = None
       end.
Proof.
  intros Hch Hreq Hfin.
  destruct (cycle_outcome_total v cfg w sheet)
    as [st' Hch' | ch' text st' _ Hreq' | ch' response' e st' _ Hreq' Hfin'
        | ch' response' res st' _ _ _ _ _ _ Hs].
  - congruence.
  - congruence.
  - rewrite Hreq in Hreq'. injection Hreq' as <-. congruence.
  - cbn [snd]. eexists. split; [exact Hs|]. split; [reflexivity|].
    unfold report_embed. cbn [embed_fields embed_description].
    destruct (table_rows_for_discord st') as [|d rows].
    + split.
      * cbn. intros [K | [K | []]]; discriminate.
      * intros ->. reflexivity.
    + split; [reflexivity|]. destruct v; reflexivity.
Qed.

Lemma report_color_Bot21_cases cfg n :
  report_color Bot21 cfg n = Green /\ (0 < n /\ n = length (INSTRUMENTS_LIST cfg))
  \/ report_color Bot21 cfg n = Orange
     /\ ~ (0 < n /\ n = length (INSTRUMENTS_LIST cfg)).
Proof.
  unfold report_color.
  destruct (Nat.ltb_spec 0 n) as [Hlt | Hge];
    destruct (Nat.eqb_spec n (length (INSTRUMENTS_LIST cfg))) as [Heq | Hne];
    cbn [andb]; [left | right | right | right]; split; auto; intros [? ?]; lia.
Qed.

(** In 2.1 the colour of every embed a cycle sends follows the rule of C1
    (the defect reported under C1 is in version 3). *)
Lemma report_color_Bot21 cfg w sheet em :
  In em (sent_embeds (events (snd (monitor_and_report Bot21 cfg w (fresh sheet))))) ->
  (embed_color em = Red
   <-> exists text,
      oanda_request w (OANDA_ACCOUNT_ID cfg) (INSTRUMENTS_STR cfg) = inl text)
  /\ (embed_color em = Green
      <-> (exists response,
              oanda_request w (OANDA_ACCOUNT_ID cfg) (INSTRUMENTS_STR cfg)
              = inr response)
          /\ 0 < rows_written (snd (monitor_and_report Bot21 cfg w (fresh sheet)))
          /\ rows_written (snd (monitor_and_report Bot21 cfg w (fresh sheet)))
             = length (INSTRUMENTS_LIST cfg))
  /\ (embed_color em = Orange
      <-> (exists response,
              oanda_request w (OANDA_ACCOUNT_ID cfg) (INSTRUMENTS_STR cfg)
              = inr response)
          /\ ~ (0 < rows_written (snd (monitor_and_report Bot21 cfg w (fresh sheet)))
                /\ rows_written (snd (monitor_and_report Bot21 cfg w (fresh sheet)))
                   = length (INSTRUMENTS_LIST cfg))).
Proof.
  destruct (cycle_outcome_total Bot21 cfg w sheet)
    as [st' _ _ _ _ Hs | ch text st' _ Hreq _ _ _ Hs
        | ch response e st' _ _ _ _ _ _ Hs
        | ch response res st' _ Hreq _ _ _ _ Hs];
    cbn [snd]; rewrite Hs; cbn [In]; intros Hin;
    try contradiction; destruct Hin as [<- | []].
  - rewrite Hreq. cbn [failure_embed embed_color].
    split; [split; [eauto | reflexivity]|].
    split; (split; [discriminate | intros [[r Hr] _]; discriminate]).
  - rewrite Hreq. cbn [report_embed embed_color].
    destruct (report_color_Bot21_cases cfg (rows_written st')) as [[-> Hc] | [-> Hc]].
    all: split; [split; [discriminate | intros [t Ht]; discriminate]|].
    all: split; split; try discriminate; try tauto.
    all: first [ intros _; split; [eauto | exact Hc]
               | intros [_ K]; contradiction ].
Qed.

(** In 2.1 a failure of the send of the full report is recovered by a log
    record and nothing else. *)
Lemma send_report_Bot21_recovers ch e st :
  fst (send_report Bot21 ch e st) = inr tt
  /\ forall text,
      channel_send ch e = Some text ->
      snd (send_report Bot21 ch e st)
      = mkState (events st
                 ++ [ChannelSend e;
                     Log ERROR "Failed to send message to Discord: "
                         (Some (LibraryError text))])
                (sheet1 st) (delivered st) (all_rows_for_gsheet st)
                (table_rows_for_discord st) (rows_written st).
Proof.
  unfold send_report, try_except, send. run_monad. step.
  destruct (channel_send ch e) as [t|]; step.
  - split; [reflexivity|]. intros text [= ->]. rewrite <- app_assoc. reflexivity.
  - split; [reflexivity|]. discriminate.
Qed.

(** ** Further properties of the cycle *)

(** The loop body raises built-in exceptions only. *)
Lemma transform_raises r st e :
  fst (transform r st) = inl e ->
  e = KeyError \/ e = IndexError \/ e = ValueError \/ e = TypeError
  \/ e = AttributeError.
Proof.
  run_monad.
  repeat (step;
          match goal with
          | |- context [match ?x with _ => _ end] =>
              lazymatch x with
              | context [match _ with _ => _ end] => fail
              | _ => destruct x
              end
          end);
    step; intros [= <-]; auto 6.
Qed.

Lemma process_record_raises v r st e :
  fst (process_record v r st) = inl e -> e = TypeError \/ e = AttributeError.
Proof.
  unfold process_record, try_except.
  pose proof (transform_raises r st) as H.
  destruct (transform r st) as [[e' | []] st']; cbn [fst] in *; [|discriminate].
  destruct (H e' eq_refl) as [-> | [-> | [-> | [-> | ->]]]];
    destruct v; cbn; intros [= <-]; auto.
Qed.

Lemma for_each_raises v items st e :
  fst (for_each items (process_record v) st) = inl e ->
  e = TypeError \/ e = AttributeError.
Proof.
  revert st. induction items as [|r rest IH]; intros st; [discriminate|].
  cbn [for_each]. unfold bind.
  pose proof (process_record_raises v r st) as H.
  destruct (process_record v r st) as [[e' | []] st']; cbn [fst] in *.
  - intros [= <-]. apply H. reflexivity.
  - apply IH.
Qed.

Lemma process_prices_raises v response st e :
  fst (process_prices v response st) = inl e ->
  e = TypeError \/ e = AttributeError.
Proof.
  unfold process_prices.
  unfold set_all_rows_for_gsheet, set_table_rows_for_discord, modify, bind, lift.
  step.
  destruct response; cbn [method_get fst];
    try (intros [= <-]; auto; fail).
  destruct (dict_get fields "prices") as [prices|]; step.
  - destruct prices; cbn [iterate fst]; try (intros [= <-]; auto; fail);
      apply for_each_raises.
  - cbn [iterate]. apply for_each_raises.
Qed.

(** X1. When [bot.get_channel] finds no channel the cycle logs one warning
    and returns: no request to OANDA, no call to the spreadsheet, nothing
    sent, nothing else touched. Both versions. *)
Theorem missing_channel_skips_the_cycle v cfg w st :
  bot_get_channel w = None ->
  monitor_and_report v cfg w st
  = (inr tt,
     mkState (events st
              ++ [Log WARNING
                      (match v with
                       | Bot21 => "Cannot find Discord channel. Will retry next cycle."
                       | Bot3 => "Cannot find Discord channel."
                       end) None])
             (sheet1 st) (delivered st) (all_rows_for_gsheet st)
             (table_rows_for_discord st) (rows_written st)).
Proof.
  intros Hch. unfold monitor_and_report. rewrite Hch. reflexivity.
Qed.

(** X2. The exceptions that leave a cycle. Either a [channel.send] raised:
    one embed was passed to the channel, which took nothing, and in 2.1 that
    embed is the red failure notice. Or the records raised a [TypeError] or
    an [AttributeError]: then nothing was sent, no call was made to the
    spreadsheet and its content is as before. *)
Theorem exceptions_leaving_a_cycle v cfg w sheet e :
  fst (monitor_and_report v cfg w (fresh sheet)) = inl e ->
  (exists text em,
      e = LibraryError text
      /\ sent_embeds (events (snd (monitor_and_report v cfg w (fresh sheet)))) = [em]
      /\ delivered (snd (monitor_and_report v cfg w (fresh sheet))) = []
      /\ (v = Bot21 -> embed_color em = Red))
  \/ ((e = TypeError \/ e = AttributeError)
      /\ sent_embeds (events (snd (monitor_and_report v cfg w (fresh sheet)))) = []
      /\ sheet_calls (events (snd (monitor_and_report v cfg w (fresh sheet)))) = []
      /\ sheet1 (snd (monitor_and_report v cfg w (fresh sheet))) = sheet
      /\ delivered (snd (monitor_and_report v cfg w (fresh sheet))) = []).
Proof.
  destruct (cycle_outcome_total v cfg w sheet)
    as [st' | ch text st' _ _ _ _ _ Hs _ _ Hd
        | ch response e' st' _ _ Hfin _ _ _ Hs Hc H1 Hd
        | ch response res st' _ _ _ _ _ _ Hs _ _ Hd Hres];
    cbn [fst snd].
  - discriminate.
  - unfold accepts in Hd.
    destruct (channel_send ch (failure_embed v text)) as [t|]; [|discriminate].
    intros [= <-]. left. exists t, (failure_embed v text). auto.
  - intros [= <-]. right.
    split; [exact (process_prices_raises v response _ Hfin) | auto].
  - intros ->. destruct Hres as [Hno | (-> & text & Hsend & [= ->])];
      [discriminate|].
    left. unfold accepts in Hd. rewrite Hsend in Hd.
    eexists _, _. split; [reflexivity|]. split; [exact Hs|].
    split; [exact Hd|]. discriminate.
Qed.

(** X3. In version 3 no record can stop a cycle: when the response is a
    dict whose [prices] can be iterated (or is absent), one full report is
    passed to the channel, whatever the records hold. *)
Theorem Bot3_always_reports cfg w ch response prices items sheet :
  bot_get_channel w = Some ch ->
  oanda_request w (OANDA_ACCOUNT_ID cfg) (INSTRUMENTS_STR cfg) = inr response ->
  method_get response "prices" (PList []) = inr prices ->
  iterate prices = inr items ->
  exists report,
    sent_embeds (events (snd (monitor_and_report Bot3 cfg w (fresh sheet)))) = [report]
    /\ embed_title report = "OANDA Price Report"
    /\ length (table_rows_for_discord (snd (monitor_and_report Bot3 cfg w (fresh sheet))))
       <= length items.
Proof.
  intros Hch Hreq Hget Hiter.
  pose proof (@process_prices_Bot3_returns response prices items
                (requested Bot3 cfg (fresh sheet)) Hget Hiter) as Hfin.
  destruct (cycle_outcome_total Bot3 cfg w sheet)
    as [st' Hch' | ch' text st' _ Hreq' | ch' response' e st' _ Hreq' Hfin'
        | ch' response' res st' _ Hreq' _ _ Hn _ Hs].
  - congruence.
  - congruence.
  - rewrite Hreq in Hreq'. injection Hreq' as <-. congruence.
  - rewrite Hreq in Hreq'. injection Hreq' as <-.
    cbn [snd]. eexists. split; [exact Hs|]. split; [reflexivity|].
    unfold price_items in Hn. rewrite Hget, Hiter in Hn. exact Hn.
Qed.

(** X4. A cycle only ever adds rows at the end of the sheet: the rows that
    were there stay, and the number of rows added is rows_written. In every
    full report the two counters show the number of SheetRows built and that
    number of rows added. Both versions. *)
Theorem sheet_accounting v cfg w sheet :
  exists added,
    sheet1 (snd (monitor_and_report v cfg w (fresh sheet))) = (sheet ++ added)%list
    /\ length added = rows_written (snd (monitor_and_report v cfg w (fresh sheet)))
    /\ forall report,
        In report (sent_embeds (events (snd (monitor_and_report v cfg w (fresh sheet))))) ->
        embed_color report <> Red ->
        In (mkField "Instruments Fetched"
              ("`" ++ str_of_nat
                        (length (all_rows_for_gsheet
                                   (snd (monitor_and_report v cfg w (fresh sheet)))))
               ++ "`") true)
           (embed_fields report)
        /\ In (mkField "Rows Written to GSheet"
                 ("`" ++ str_of_nat (length added) ++ "`") true)
              (embed_fields report).
Proof.
  destruct (cycle_outcome_total v cfg w sheet)
    as [st' _ _ _ Hw Hs _ H1 | ch text st' _ _ _ _ Hw Hs _ H1
        | ch response e st' _ _ _ _ _ Hw Hs _ H1
        | ch response res st' _ _ _ _ _ Hw Hs _ H1];
    cbn [snd].
  - exists []. rewrite app_nil_r, Hw, Hs.
    split; [auto|]. split; [reflexivity|]. intros r [].
  - exists []. rewrite app_nil_r, Hw, Hs.
    split; [auto|]. split; [reflexivity|].
    intros r [<- | []] Hred. exfalso. apply Hred. reflexivity.
  - exists []. rewrite app_nil_r, Hw, Hs.
    split; [auto|]. split; [reflexivity|]. intros r [].
  - eexists. split; [exact H1|].
    assert (Hlen : length (if append_succeeds (bot_gspread_client w)
                                (GOOGLE_SHEET_NAME cfg) (all_rows_for_gsheet st')
                           then all_rows_for_gsheet st' else [])
                   = rows_written st')
      by (rewrite Hw; destruct (append_succeeds _ _ _); reflexivity).
    split; [exact Hlen|].
    rewrite Hs. intros r [<- | []] _. rewrite Hlen.
    unfold report_embed. cbn [embed_fields].
    split; apply in_or_app; right; cbn; auto.
Qed.

(** X5. A cycle passes at most one embed to the channel and calls the
    spreadsheet at most once: nothing, a failed open, or an open followed by
    one append of all the SheetRows; it makes no call when there is no
    SheetRow or no client. Both versions. *)
Theorem at_most_one_send_and_one_append v cfg w sheet :
  length (sent_embeds (events (snd (monitor_and_report v cfg w (fresh sheet))))) <= 1
  /\ (sheet_calls (events (snd (monitor_and_report v cfg w (fresh sheet)))) = []
      \/ sheet_calls (events (snd (monitor_and_report v cfg w (fresh sheet))))
         = [SheetOpen (GOOGLE_SHEET_NAME cfg)]
      \/ sheet_calls (events (snd (monitor_and_report v cfg w (fresh sheet))))
         = [SheetOpen (GOOGLE_SHEET_NAME cfg);
            SheetAppendRows
              (all_rows_for_gsheet (snd (monitor_and_report v cfg w (fresh sheet))))])
  /\ (all_rows_for_gsheet (snd (monitor_and_report v cfg w (fresh sheet))) = []
      \/ bot_gspread_client w = None ->
      sheet_calls (events (snd (monitor_and_report v cfg w (fresh sheet)))) = []).
Proof.
  destruct (cycle_outcome_total v cfg w sheet)
    as [st' _ _ _ _ Hs Hc | ch text st' _ _ _ _ _ Hs Hc
        | ch response e st' _ _ _ _ _ _ Hs Hc
        | ch response res st' _ _ _ _ _ _ Hs Hc];
    cbn [snd]; rewrite Hs, Hc; cbn [length]; try (repeat split; auto; fail).
  split; [auto|]. unfold sink_calls. split.
  - destruct (all_rows_for_gsheet st'); [auto|].
    destruct (bot_gspread_client w) as [c|]; [|auto].
    destruct (client_open c (GOOGLE_SHEET_NAME cfg)); auto.
  - intros [-> | ->]; [reflexivity|].
    destruct (all_rows_for_gsheet st'); reflexivity.
Qed.

(** X6. A failure of the sink does not stop the report. When the request
    returned, the loop over the records finished and the append did not go
    through (or there is no client), one report is passed to the channel;
    it is orange, rows_written is 0 and the sheet is as before. Both
    versions. *)
Theorem sink_failure_still_reports v cfg w ch response sheet :
  bot_get_channel w = Some ch ->
  oanda_request w (OANDA_ACCOUNT_ID cfg) (INSTRUMENTS_STR cfg) = inr response ->
  fst (process_prices v response (requested v cfg (fresh sheet))) = inr tt ->
  append_succeeds (bot_gspread_client w) (GOOGLE_SHEET_NAME cfg)
    (all_rows_for_gsheet (snd (monitor_and_report v cfg w (fresh sheet)))) = false ->
  exists report,
    sent_embeds (events (snd (monitor_and_report v cfg w (fresh sheet)))) = [report]
    /\ embed_color report = Orange
    /\ rows_written (snd (monitor_and_report v cfg w (fresh sheet))) = 0
    /\ sheet1 (snd (monitor_and_report v cfg w (fresh sheet))) = sheet.
Proof.
  intros Hch Hreq Hfin.
  destruct (cycle_outcome_total v cfg w sheet)
    as [st' Hch' | ch' text st' _ Hreq' | ch' response' e st' _ Hreq' Hfin'
        | ch' response' res st' _ _ _ _ _ Hw Hs _ H1];
    cbn [snd].
  - congruence.
  - congruence.
  - rewrite Hreq in Hreq'. injection Hreq' as <-. congruence.
  - intros Hko. rewrite Hko in Hw, H1. rewrite app_nil_r in H1.
    eexists. split; [exact Hs|]. rewrite Hw.
    split; [destruct v; reflexivity|]. auto.
Qed.

(** *** The lists do not depend on the rest of the state *)

Ltac destruct_innermost :=
  match goal with
  | |- context [match ?x with _ => _ end] =>
      lazymatch x with
      | context [match _ with _ => _ end] => fail
      | _ => destruct x
      end
  end.

Lemma transform_same_lists r st1 st2 :
  same_lists st1 st2 ->
  fst (transform r st1) = fst (transform r st2)
  /\ same_lists (snd (transform r st1)) (snd (transform r st2)).
Proof.
  intros [Ha Ht]. unfold same_lists. run_monad.
  repeat (step; destruct_innermost); step;
    rewrite ?Ha, ?Ht; repeat split; reflexivity.
Qed.

Lemma process_record_same_lists v r st1 st2 :
  same_lists st1 st2 ->
  fst (process_record v r st1) = fst (process_record v r st2)
  /\ same_lists (snd (process_record v r st1)) (snd (process_record v r st2)).
Proof.
  intros H. destruct (transform_same_lists r H) as [Hf Hl].
  unfold process_record, try_except.
  destruct (transform r st1) as [[e1 | []] st1'],
           (transform r st2) as [[e2 | []] st2']; cbn [fst snd] in *;
    try discriminate; [|split; [reflexivity | exact Hl]].
  injection Hf as <-.
  destruct (parse_errors v e1); [|split; [reflexivity | exact Hl]].
  run_monad. step. split; [reflexivity | exact Hl].
Qed.

Lemma for_each_same_lists v items st1 st2 :
  same_lists st1 st2 ->
  fst (for_each items (process_record v) st1)
  = fst (for_each items (process_record v) st2)
  /\ same_lists (snd (for_each items (process_record v) st1))
                (snd (for_each items (process_record v) st2)).
Proof.
  revert st1 st2. induction items as [|r rest IH]; intros st1 st2 H.
  - split; [reflexivity | exact H].
  - cbn [for_each]. unfold bind.
    destruct (process_record_same_lists v r H) as [Hf Hl].
    destruct (process_record v r st1) as [[e1 | []] st1'],
             (process_record v r st2) as [[e2 | []] st2']; cbn [fst snd] in *;
      try discriminate.
    + split; [exact Hf | exact Hl].
    + apply IH. exact Hl.
Qed.

Lemma process_prices_same_lists v response st1 st2 :
  fst (process_prices v response st1) = fst (process_prices v response st2)
  /\ same_lists (snd (process_prices v response st1))
                (snd (process_prices v response st2)).
Proof.
  unfold process_prices.
  unfold set_all_rows_for_gsheet, set_table_rows_for_discord, modify, bind, lift.
  step.
  destruct (method_get response "prices" (PList [])) as [e | prices]; step;
    [split; [reflexivity | split; reflexivity]|].
  destruct (iterate prices) as [e | items]; step;
    [split; [reflexivity | split; reflexivity]|].
  apply for_each_same_lists. split; reflexivity.
Qed.

(** The end of a cycle whose loop over the records finished, in terms of
    the state the loop left. *)
Lemma cycle_after_the_loop v cfg w ch response sheet st1 :
  bot_get_channel w = Some ch ->
  oanda_request w (OANDA_ACCOUNT_ID cfg) (INSTRUMENTS_STR cfg) = inr response ->
  process_prices v response (requested v cfg (fresh sheet)) = (inr tt, st1) ->
  all_rows_for_gsheet (snd (monitor_and_report v cfg w (fresh sheet)))
  = all_rows_for_gsheet st1
  /\ table_rows_for_discord (snd (monitor_and_report v cfg w (fresh sheet)))
     = table_rows_for_discord st1
  /\ rows_written (snd (monitor_and_report v cfg w (fresh sheet)))
     = (if append_succeeds (bot_gspread_client w) (GOOGLE_SHEET_NAME cfg)
             (all_rows_for_gsheet st1)
        then length (all_rows_for_gsheet st1) else 0)
  /\ sheet1 (snd (monitor_and_report v cfg w (fresh sheet)))
     = (sheet ++ if append_succeeds (bot_gspread_client w) (GOOGLE_SHEET_NAME cfg)
                      (all_rows_for_gsheet st1)
                 then all_rows_for_gsheet st1 else [])%list.
Proof.
  intros Hch Hreq E1.
  rewrite cycle_with_channel with (ch := ch) by exact Hch. rewrite Hreq.
  destruct (@on_response_reports v cfg w ch response _ st1 E1)
    as (res & st' & -> & _ & Ha & Ht & Hw & _ & _ & H1 & _).
  cbn [snd]. repeat split; try assumption.
  rewrite H1. f_equal.
  pose proof (process_prices_grows v response (requested v cfg (fresh sheet)))
    as ((G1 & _) & _).
  rewrite E1 in G1. cbn [snd with_rows sheet1] in G1. rewrite G1.
  apply requested_frame.
Qed.

Lemma cycle_after_an_aborted_loop v cfg w ch response sheet e st1 :
  bot_get_channel w = Some ch ->
  oanda_request w (OANDA_ACCOUNT_ID cfg) (INSTRUMENTS_STR cfg) = inr response ->
  process_prices v response (requested v cfg (fresh sheet)) = (inl e, st1) ->
  sheet1 (snd (monitor_and_report v cfg w (fresh sheet))) = sheet.
Proof.
  intros Hch Hreq E1.
  rewrite cycle_with_channel with (ch := ch) by exact Hch. rewrite Hreq.
  rewrite on_response_aborted with (e := e) (st1 := st1) by exact E1.
  cbn [snd].
  pose proof (process_prices_grows v response (requested v cfg (fresh sheet)))
    as ((G1 & _) & _).
  rewrite E1 in G1. cbn [snd with_rows sheet1] in G1. rewrite G1.
  apply requested_frame.
Qed.

(** What a cycle adds to the sheet does not depend on what the sheet
    holds. *)
Lemma cycle_adds_the_same v cfg w :
  exists added,
    forall sheet,
      sheet1 (snd (monitor_and_report v cfg w (fresh sheet))) = (sheet ++ added)%list
      /\ rows_written (snd (monitor_and_report v cfg w (fresh sheet))) = length added.
Proof.
  destruct (bot_get_channel w) as [ch|] eqn:Hch.
  - destruct (oanda_request w (OANDA_ACCOUNT_ID cfg) (INSTRUMENTS_STR cfg))
      as [text | response] eqn:Hreq.
    + exists []. intros sheet. rewrite app_nil_r.
      destruct (cycle_outcome_total v cfg w sheet)
        as [st' Hch' | ch' text' st' _ _ _ _ Hw _ _ H1
            | ch' response e st' _ Hreq' | ch' response res st' _ Hreq'];
        cbn [snd]; first [congruence | solve [auto]].
    + destruct (process_prices v response (requested v cfg (fresh [])))
        as [[e | []] st0] eqn:E0.
      * exists []. intros sheet. rewrite app_nil_r.
        destruct (process_prices_same_lists v response
                    (requested v cfg (fresh sheet)) (requested v cfg (fresh [])))
          as [Hf _].
        rewrite E0 in Hf. cbn [fst] in Hf.
        destruct (cycle_outcome_total v cfg w sheet)
          as [st' Hch' | ch' text' st' _ Hreq'
              | ch' response' e' st' _ _ _ _ _ Hw _ _ H1
              | ch' response' res st' _ Hreq' Hfin];
          cbn [snd];
          first [ congruence
                | solve [auto]
                | rewrite Hreq in Hreq'; injection Hreq' as <-; congruence ].
      * exists (if append_succeeds (bot_gspread_client w) (GOOGLE_SHEET_NAME cfg)
                     (all_rows_for_gsheet st0)
                then all_rows_for_gsheet st0 else []).
        intros sheet.
        destruct (process_prices_same_lists v response
                    (requested v cfg (fresh sheet)) (requested v cfg (fresh [])))
          as [Hf [Hl _]].
        rewrite E0 in Hf, Hl. cbn [fst snd] in Hf, Hl.
        destruct (process_prices v response (requested v cfg (fresh sheet)))
          as [r1 st1] eqn:E1. cbn [fst snd] in Hf, Hl. subst r1.
        destruct (@cycle_after_the_loop v cfg w ch response sheet st1 Hch Hreq E1)
          as (_ & _ & Hw & H1).
        rewrite H1, Hw, Hl.
        destruct (append_succeeds (bot_gspread_client w) (GOOGLE_SHEET_NAME cfg)
                    (all_rows_for_gsheet st0)); split; reflexivity.
  - exists []. intros sheet. rewrite app_nil_r.
    destruct (cycle_outcome_total v cfg w sheet)
      as [st' _ _ _ Hw _ _ H1 | ch' text' st' Hch'
          | ch' response e st' Hch' | ch' response res st' Hch'];
      cbn [snd]; first [congruence | solve [auto]].
Qed.

(** X7. The sink is not idempotent: a cycle run again on the sheet it
    left, with the same answers from the collaborators, adds the same rows a
    second time. Both versions. *)
Theorem rerun_appends_again v cfg w sheet :
  exists added,
    sheet1 (snd (monitor_and_report v cfg w (fresh sheet))) = (sheet ++ added)%list
    /\ length added = rows_written (snd (monitor_and_report v cfg w (fresh sheet)))
    /\ sheet1 (snd (monitor_and_report v cfg w
                      (fresh (sheet1 (snd (monitor_and_report v cfg w (fresh sheet)))))))
       = (sheet ++ added ++ added)%list.
Proof.
  destruct (cycle_adds_the_same v cfg w) as (added & H).
  exists added. destruct (H sheet) as [H1 Hw].
  split; [exact H1|]. split; [symmetry; exact Hw|].
  rewrite (proj1 (H _)), H1, <- app_assoc. reflexivity.
Qed.

Lemma process_record_versions r st1 st2 :
  same_lists st1 st2 ->
  fst (process_record Bot21 r st1) = inr tt ->
  fst (process_record Bot3 r st2) = inr tt
  /\ same_lists (snd (process_record Bot21 r st1)) (snd (process_record Bot3 r st2)).
Proof.
  intros H. destruct (transform_same_lists r H) as [Hf Hl].
  unfold process_record, try_except.
  destruct (transform r st1) as [[e1 | []] st1'],
           (transform r st2) as [[e2 | []] st2']; cbn [fst snd] in *;
    try discriminate; [|intros _; split; [reflexivity | exact Hl]].
  injection Hf as <-. cbn [parse_errors].
  destruct e1; cbn [fst]; try discriminate;
    intros _; run_monad; step; (split; [reflexivity | exact Hl]).
Qed.

Lemma for_each_versions items st1 st2 :
  same_lists st1 st2 ->
  fst (for_each items (process_record Bot21) st1) = inr tt ->
  fst (for_each items (process_record Bot3) st2) = inr tt
  /\ same_lists (snd (for_each items (process_record Bot21) st1))
                (snd (for_each items (process_record Bot3) st2)).
Proof.
  revert st1 st2. induction items as [|r rest IH]; intros st1 st2 H.
  - intros _. split; [reflexivity | exact H].
  - cbn [for_each]. unfold bind.
    pose proof (process_record_versions r H) as Hr.
    destruct (process_record Bot21 r st1) as [[e1 | []] st1'];
      cbn [fst snd] in *; [discriminate|].
    destruct (Hr eq_refl) as [Hf Hl].
    destruct (process_record Bot3 r st2) as [[e2 | []] st2'];
      cbn [fst snd] in *; [discriminate|].
    apply IH. exact Hl.
Qed.

Lemma process_prices_versions response st1 st2 :
  fst (process_prices Bot21 response st1) = inr tt ->
  fst (process_prices Bot3 response st2) = inr tt
  /\ same_lists (snd (process_prices Bot21 response st1))
                (snd (process_prices Bot3 response st2)).
Proof.
  unfold process_prices.
  unfold set_all_rows_for_gsheet, set_table_rows_for_discord, modify, bind, lift.
  step.
  destruct (method_get response "prices" (PList [])) as [e | prices]; step;
    [discriminate|].
  destruct (iterate prices) as [e | items]; step; [discriminate|].
  apply for_each_versions. split; reflexivity.
Qed.

(** X8. Version 3 writes what version 2.1 writes: in a cycle where the
    loop of 2.1 finishes, the loop of 3 finishes too, with the same
    SheetRows and the same DisplayRows; the same rows are added to the sheet
    and rows_written is the same. *)
Theorem versions_write_the_same_rows cfg w ch response sheet :
  bot_get_channel w = Some ch ->
  oanda_request w (OANDA_ACCOUNT_ID cfg) (INSTRUMENTS_STR cfg) = inr response ->
  fst (process_prices Bot21 response (requested Bot21 cfg (fresh sheet))) = inr tt ->
  all_rows_for_gsheet (snd (monitor_and_report Bot3 cfg w (fresh sheet)))
  = all_rows_for_gsheet (snd (monitor_and_report Bot21 cfg w (fresh sheet)))
  /\ table_rows_for_discord (snd (monitor_and_report Bot3 cfg w (fresh sheet)))
     = table_rows_for_discord (snd (monitor_and_report Bot21 cfg w (fresh sheet)))
  /\ sheet1 (snd (monitor_and_report Bot3 cfg w (fresh sheet)))
     = sheet1 (snd (monitor_and_report Bot21 cfg w (fresh sheet)))
  /\ rows_written (snd (monitor_and_report Bot3 cfg w (fresh sheet)))
     = rows_written (snd (monitor_and_report Bot21 cfg w (fresh sheet))).
Proof.
  intros Hch Hreq Hfin.
  destruct (process_prices_versions response (requested Bot21 cfg (fresh sheet))
              (requested Bot3 cfg (fresh sheet)) Hfin) as [Hfin3 [Ha Ht]].
  destruct (process_prices Bot21 response (requested Bot21 cfg (fresh sheet)))
    as [r1 st1] eqn:E1.
  destruct (process_prices Bot3 response (requested Bot3 cfg (fresh sheet)))
    as [r3 st3] eqn:E3.
  cbn [fst snd] in *. subst r1 r3.
  destruct (@cycle_after_the_loop Bot21 cfg w ch response sheet st1 Hch Hreq E1)
    as (A1 & T1 & W1 & S1).
  destruct (@cycle_after_the_loop Bot3 cfg w ch response sheet st3 Hch Hreq E3)
    as (A3 & T3 & W3 & S3).
  rewrite A1, T1, W1, S1, A3, T3, W3, S3, Ha, Ht. repeat split; reflexivity.
Qed.

Lemma transform_row_or_raise r st :
  events (snd (transform r st)) = events st
  /\ match fst (transform r st) with
     | inr _ =>
         length (all_rows_for_gsheet (snd (transform r st)))
         = S (length (all_rows_for_gsheet st))
     | inl _ => all_rows_for_gsheet (snd (transform r st)) = all_rows_for_gsheet st
     end.
Proof.
  run_monad.
  repeat (step; destruct_innermost); step;
    (split; [reflexivity|]); try reflexivity.
  rewrite length_app. cbn. lia.
Qed.

Lemma for_each_row_or_warning v items st :
  fst (for_each items (process_record v) st) = inr tt ->
  exists logs,
    events (snd (for_each items (process_record v) st)) = (events st ++ logs)%list
    /\ forallb parse_warning logs = true
    /\ length logs + length (all_rows_for_gsheet (snd (for_each items (process_record v) st)))
       = length (all_rows_for_gsheet st) + length items.
Proof.
  revert st. induction items as [|r rest IH]; intros st.
  - intros _. exists []. cbn. rewrite app_nil_r. repeat split; lia.
  - cbn [for_each]. unfold bind.
    assert (Hr : fst (process_record v r st) = inr tt ->
                 exists logs,
                   events (snd (process_record v r st)) = (events st ++ logs)%list
                   /\ forallb parse_warning logs = true
                   /\ length logs
                      + length (all_rows_for_gsheet (snd (process_record v r st)))
                      = S (length (all_rows_for_gsheet st))).
    { unfold process_record, try_except.
      destruct (transform_row_or_raise r st) as [He Hrow].
      destruct (transform r st) as [[e | []] st']; cbn [fst snd] in *.
      - destruct (parse_errors v e); [|discriminate].
        intros _. run_monad. step. eexists [_]. rewrite He, Hrow.
        repeat split; reflexivity.
      - intros _. exists []. rewrite He, Hrow, app_nil_r. repeat split; reflexivity. }
    destruct (process_record v r st) as [[e | []] st1]; cbn [fst snd] in *;
      [discriminate|].
    destruct (Hr eq_refl) as (l1 & E1 & F1 & N1).
    intros Hrest. destruct (IH st1 Hrest) as (l2 & E2 & F2 & N2).
    exists (l1 ++ l2)%list. rewrite E2, E1, <- app_assoc, forallb_app, F1, F2.
    rewrite length_app. cbn [length]. repeat split; lia.
Qed.

(** X9. Every record is a SheetRow or a warning: when the loop over the
    records finishes (it always does in 3), each record the provider
    returned has added one SheetRow or has been logged once as a warning,
    never both and never neither. *)
Theorem every_record_is_a_row_or_a_warning v response st :
  fst (process_prices v response st) = inr tt ->
  exists logs,
    events (snd (process_prices v response st)) = (events st ++ logs)%list
    /\ forallb parse_warning logs = true
    /\ length logs + length (all_rows_for_gsheet (snd (process_prices v response st)))
       = length (price_items response).
Proof.
  unfold process_prices, price_items.
  unfold set_all_rows_for_gsheet, set_table_rows_for_discord, modify, bind, lift.
  step.
  destruct (method_get response "prices" (PList [])) as [e | prices]; step;
    [discriminate|].
  destruct (iterate prices) as [e | items]; step; [discriminate|].
  intros Hfin.
  destruct (for_each_row_or_warning v items _ Hfin) as (logs & He & Hf & Hn).
  exists logs. split; [exact He|]. split; [exact Hf | exact Hn].
Qed.

Lemma auth_gspread_runs v file g st :
  exists st',
    auth_gspread v file g st = (inr (authenticates file g), st')
    /\ same_outside st st'
    /\ same_lists st st'.
Proof.
  unfold auth_gspread, authenticates, logging_in.
  destruct (from_service_account_file g file) as [| text | text];
    [destruct (authorize g) as [text | client]| |];
    destruct v; cbn [is_Bot21]; run_monad; step;
    (eexists; split; [reflexivity|]);
    (split; [|split; reflexivity]);
    repeat split;
    first [ solve [exists []; split; [cbn; rewrite ?app_nil_r; reflexivity | reflexivity]]
          | solve [eexists [_]; split; reflexivity] ].
Qed.

(** X10. [on_ready] calls neither the spreadsheet nor the channel and
    leaves log records only. The client it stores is the authorised client
    when the credentials load and the authorisation goes through, [None] in
    every other case (file not found, bad credentials, refused
    authorisation). It then starts the loop and returns normally, unless the
    task of the loop is already running: then [start()] raises its
    [RuntimeError], which leaves [on_ready] with the client stored all the
    same. Both versions. *)
Theorem on_ready_returns v user_name file g b st :
  exists st',
    on_ready v user_name file g b st
    = (if loop_running b
       then inl (LibraryError "Task is already launched and is not completed.")
       else inr tt,
       mkBot (authenticates file g) true, st')
    /\ same_outside st st'
    /\ same_lists st st'.
Proof.
  unfold on_ready, bind, logging, emit, modify. step.
  match goal with
  | |- context [auth_gspread v file g ?s] =>
      destruct (auth_gspread_runs v file g s) as (st' & E & Ho & Hl)
  end.
  exists st'. rewrite E. unfold loop_start. cbn [loop_running stored_client].
  split.
  - destruct b as [c []]; reflexivity.
  - split; [|exact Hl].
    eapply same_outside_trans; [|exact Ho].
    repeat split. eexists [_]. split; reflexivity.
Qed.

(** X11. A failed authentication at start-up does not stop the bot, it
    disables the sink: [on_ready] stores no client, and every cycle run
    with the client it stored makes no call to the spreadsheet, leaves
    rows_written at 0 and the sheet as it was, and sends no green report.
    Both versions. *)
Theorem failed_authentication_disables_the_sink v user_name file g b st0 cfg w sheet :
  authenticates file g = None ->
  stored_client (snd (fst (on_ready v user_name file g b st0))) = bot_gspread_client w ->
  sheet_calls (events (snd (monitor_and_report v cfg w (fresh sheet)))) = []
  /\ rows_written (snd (monitor_and_report v cfg w (fresh sheet))) = 0
  /\ sheet1 (snd (monitor_and_report v cfg w (fresh sheet))) = sheet
  /\ forall report,
      In report (sent_embeds (events (snd (monitor_and_report v cfg w (fresh sheet))))) ->
      embed_color report <> Green.
Proof.
  intros Hauth Hready.
  assert (Hclient : bot_gspread_client w = None).
  { unfold on_ready, bind, logging, emit, modify in Hready.
    cbv beta iota in Hready.
    match type of Hready with
    | context [auth_gspread v file g ?s] =>
        destruct (auth_gspread_runs v file g s) as (st' & E & _)
    end.
    rewrite E, Hauth in Hready. unfold loop_start in Hready.
    cbn [loop_running stored_client] in Hready.
    destruct (loop_running b); cbn [fst snd stored_client] in Hready;
      symmetry; exact Hready. }
  destruct (cycle_outcome_total v cfg w sheet)
    as [st' _ _ _ Hw Hs Hc H1 | ch text st' _ _ _ _ Hw Hs Hc H1
        | ch response e st' _ _ _ _ _ Hw Hs Hc H1
        | ch response res st' _ _ _ _ _ Hw Hs Hc H1];
    cbn [snd]; rewrite Hs.
  - repeat split; auto; try (intros r []; fail).
  - repeat split; auto; try (intros r [<- | []]; discriminate).
  - repeat split; auto; try (intros r []; fail).
  - rewrite Hclient in *. cbn [append_succeeds] in *.
    rewrite sink_calls_None in Hc. rewrite app_nil_r in H1.
    repeat split; auto.
    try (intros r [<- | []]; rewrite Hw; destruct v; discriminate).
Qed.

Lemma get_after s1 s2 n :
  String.get (n + String.length s1) (s1 ++ s2) = String.get n s2.
Proof. symmetry. apply append_correct2. Qed.

(** X12. The DisplayRow of a quote has max(10, len) characters for each of
    its three fields plus five for the separators. When the instrument and
    the two prices have at most ten characters it has 35 characters, with
    its bars at positions 10 and 23; the header has 37, with its bars at
    positions 10 and 24. Both versions. *)
Theorem display_row_width v fields i b a st :
  has_quote fields i b a ->
  exists d,
    table_rows_for_discord (snd (process_record v (PDict fields) st))
    = (table_rows_for_discord st ++ [d])%list
    /\ String.length d
       = Nat.max 10 (String.length i) + Nat.max 10 (String.length b)
         + Nat.max 10 (String.length a) + 5
    /\ (String.length i <= 10 -> String.length b <= 10 -> String.length a <= 10 ->
        String.length d = 35
        /\ String.get 10 d = Some "|"%char
        /\ String.get 23 d = Some "|"%char)
    /\ String.length header = 37
    /\ String.get 10 header = Some "|"%char
    /\ String.get 24 header = Some "|"%char.
Proof.
  intros Hq. exists (display_row i b a). split.
  - destruct (process_record_lists v (PDict fields) st) as [_ ->].
    apply (transform_quote st Hq).
  - assert (Hlen : String.length (display_row i b a)
                   = Nat.max 10 (String.length i) + Nat.max 10 (String.length b)
                     + Nat.max 10 (String.length a) + 5).
    { unfold display_row.
      rewrite !length_string_app, length_ljust, !length_rjust. cbn. lia. }
    split; [exact Hlen|]. split; [|repeat split; reflexivity].
    intros Hi Hb Ha. split; [rewrite Hlen; lia|].
    assert (Li : String.length (ljust i 10) = 10) by (rewrite length_ljust; lia).
    assert (Lb : String.length (rjust b 10) = 10) by (rewrite length_rjust; lia).
    unfold display_row. split.
    + replace 10 with (0 + String.length (ljust i 10)) at 1 by (rewrite Li; reflexivity).
      rewrite get_after. reflexivity.
    + replace 23 with (13 + String.length (ljust i 10)) by (rewrite Li; reflexivity).
      rewrite get_after.
      change (String.get 11 (rjust b 10 ++ " | " ++ rjust a 10) = Some "|"%char).
      replace 11 with (1 + String.length (rjust b 10)) by (rewrite Lb; reflexivity).
      rewrite get_after. reflexivity.
Qed.

Lemma process_prices_contributes v resp items parts st :
  dict_get resp "prices" = Some (PList items) ->
  Forall2 (fun r p => contributes r (fst p) (snd p)) items parts ->
  exists st',
    process_prices v (PDict resp) st = (inr tt, st')
    /\ all_rows_for_gsheet st' = concat (map fst parts)
    /\ table_rows_for_discord st' = concat (map snd parts).
Proof.
  intros Hp Hparts.
  destruct (for_each_contributes v (with_rows st [] []) Hparts)
    as (st' & E & Ha & Ht & _).
  exists st'. unfold process_prices.
  unfold set_all_rows_for_gsheet, set_table_rows_for_discord, modify, bind, lift,
    method_get, iterate.
  step. rewrite Hp. step. split; [exact E|]. split; assumption.
Qed.

Lemma valid_batch_parts items rows :
  Forall2 (fun r row => exists d, contributes r [row] d) items rows ->
  exists parts,
    Forall2 (fun r p => contributes r (fst p) (snd p)) items parts
    /\ concat (map fst parts) = rows.
Proof.
  induction 1 as [|r row items rows (d & Hr) _ (parts & Hp & Hc)].
  - exists []. split; [constructor | reflexivity].
  - exists (([row], d) :: parts). split; [constructor; assumption|].
    cbn. rewrite Hc. reflexivity.
Qed.

(** X17. The cycle in which everything works. When every record the
    provider returned is valid, there are as many as instruments requested
    (at least one) and the append goes through, the rows of the records are
    at the end of the sheet in the order of the response, rows_written is
    their number, and the one report sent is green. Both versions. *)
Theorem full_success_is_green v cfg w ch resp items rows sheet :
  bot_get_channel w = Some ch ->
  oanda_request w (OANDA_ACCOUNT_ID cfg) (INSTRUMENTS_STR cfg) = inr (PDict resp) ->
  dict_get resp "prices" = Some (PList items) ->
  Forall2 (fun r row => exists d, contributes r [row] d) items rows ->
  length items = length (INSTRUMENTS_LIST cfg) ->
  append_succeeds (bot_gspread_client w) (GOOGLE_SHEET_NAME cfg) rows = true ->
  sheet1 (snd (monitor_and_report v cfg w (fresh sheet))) = (sheet ++ rows)%list
  /\ rows_written (snd (monitor_and_report v cfg w (fresh sheet))) = length items
  /\ exists report,
      sent_embeds (events (snd (monitor_and_report v cfg w (fresh sheet)))) = [report]
      /\ embed_color report = Green.
Proof.
  intros Hch Hreq Hp Hvalid Hlen Hok.
  assert (Hrows : length rows = length items)
    by (symmetry; eapply Forall2_length; exact Hvalid).
  assert (Hpos : 0 < length (INSTRUMENTS_LIST cfg))
    by (unfold INSTRUMENTS_LIST; rewrite length_map;
        destruct (INSTRUMENTS_STR cfg) as [|c rest]; cbn;
        [lia | destruct (Ascii.eqb c ","); [cbn; lia|];
               destruct (split rest ","); cbn; lia]).
  destruct (valid_batch_parts Hvalid) as (parts & Hparts & Hc).
  destruct (@process_prices_contributes v resp items parts
              (requested v cfg (fresh sheet)) Hp Hparts)
    as (st1 & E1 & Ha1 & _).
  rewrite Hc in Ha1.
  destruct (@cycle_after_the_loop v cfg w ch (PDict resp) sheet st1 Hch Hreq E1)
    as (Ha & _ & Hw & H1).
  rewrite Ha1, Hok in Hw, H1. rewrite Hrows in Hw.
  split; [exact H1|]. split; [exact Hw|].
  destruct (cycle_outcome_total v cfg w sheet)
    as [st' Hch' | ch' text st' _ Hreq' | ch' response' e st' _ Hreq' Hfin'
        | ch' response' res st' _ _ _ _ _ _ Hs];
    cbn [snd] in *.
  - congruence.
  - congruence.
  - rewrite Hreq in Hreq'. injection Hreq' as <-. rewrite E1 in Hfin'. discriminate.
  - eexists. split; [exact Hs|]. cbn [report_embed embed_color]. rewrite Hw.
    unfold report_color.
    destruct v.
    + rewrite Hlen, Nat.eqb_refl.
      destruct (Nat.ltb_spec 0 (length (INSTRUMENTS_LIST cfg))); [reflexivity | lia].
    + destruct (Nat.ltb_spec 0 (length items)); [reflexivity | lia].
Qed.

End Cycle.

(** ** The model at concrete inputs

    The cycle is run with the reference clock library [IsoSeconds]. *)

Abbreviation run := (monitor_and_report IsoSeconds.fromisoformat IsoSeconds.strftime).
Abbreviation run_records := (process_prices IsoSeconds.fromisoformat IsoSeconds.strftime).
Abbreviation run_record := (process_record IsoSeconds.fromisoformat IsoSeconds.strftime).
Abbreviation start := (fresh IsoSeconds.datetime []).
Abbreviation answering := (sample_world IsoSeconds.now).

Lemma quote_ok_valid :
  valid_record IsoSeconds.fromisoformat quote_ok "EUR_USD" "1.10000" "1.10020"
               (PStr "tradeable") (IsoSeconds.mkDatetime 2024 1 2 3 4 5).
Proof.
  eexists _, "2024-01-02T03:04:05Z". split; [reflexivity|].
  split; [|repeat split; reflexivity].
  split; [reflexivity|].
  split; do 2 eexists; split; reflexivity.
Defined.

Lemma quote_no_time_has_quote :
  has_quote (quote "EUR_USD" "1.10000" "1.10020" ++ [("status", PStr "tradeable")])%list
            "EUR_USD" "1.10000" "1.10020".
Proof.
  split; [reflexivity|].
  split; do 2 eexists; split; reflexivity.
Defined.

Lemma quote_no_time_lacks_stamp :
  lacks_stamp IsoSeconds.fromisoformat
    (quote "EUR_USD" "1.10000" "1.10020" ++ [("status", PStr "tradeable")])%list.
Proof. apply time_missing. reflexivity. Defined.

(** C2 at the record [quote_ok]. *)
Lemma C2_witness :
  valid_record IsoSeconds.fromisoformat quote_ok "EUR_USD" "1.10000" "1.10020"
               (PStr "tradeable") (IsoSeconds.mkDatetime 2024 1 2 3 4 5)
  /\ run_record Bot21 quote_ok start
     = (inr tt,
        with_rows start
          [[PStr "EUR_USD"; PStr "2024-01-02 03:04:05"; PStr "tradeable";
            PStr "1.10000"; PStr "1.10020"]]
          ["EUR_USD   |    1.10000 |    1.10020"]).
Proof.
  split; [exact quote_ok_valid|].
  exact (C2_valid_record_one_row_each IsoSeconds.strftime Bot21 start quote_ok_valid).
Defined.

(** C3 as stated fails: [quote_no_time] has no [time] key, yet the batch
    that holds it ends with its DisplayRow in the table (and no SheetRow),
    in both versions. *)
Lemma C3_counterexample :
  subscript_key quote_no_time "time" = inl KeyError
  /\ table_rows_for_discord
       (snd (run_records Bot21 (prices_response [quote_no_time]) start))
     = ["EUR_USD   |    1.10000 |    1.10020"]
  /\ table_rows_for_discord
       (snd (run_records Bot3 (prices_response [quote_no_time]) start))
     = ["EUR_USD   |    1.10000 |    1.10020"]
  /\ all_rows_for_gsheet
       (snd (run_records Bot21 (prices_response [quote_no_time]) start)) = [].
Proof. repeat split; reflexivity. Qed.

(** C3 (amended) on a batch of a valid record, a record without a first bid
    and a record without its time. *)
Lemma C3_witness :
  exists st',
    run_records Bot21 (prices_response [quote_ok; quote_no_bids; quote_no_time]) start
    = (inr tt, st')
    /\ all_rows_for_gsheet st'
       = [[PStr "EUR_USD"; PStr "2024-01-02 03:04:05"; PStr "tradeable";
           PStr "1.10000"; PStr "1.10020"]]
    /\ table_rows_for_discord st'
       = ["EUR_USD   |    1.10000 |    1.10020";
          "EUR_USD   |    1.10000 |    1.10020"].
Proof.
  destruct (@C3_defective_records_are_isolated
              _ IsoSeconds.fromisoformat IsoSeconds.strftime Bot21
              [("time", PStr "2024-01-02T03:04:05Z");
               ("prices", PList [quote_ok; quote_no_bids; quote_no_time])]
              [quote_ok; quote_no_bids; quote_no_time]
              [([sheet_row IsoSeconds.strftime "EUR_USD"
                   (IsoSeconds.mkDatetime 2024 1 2 3 4 5) (PStr "tradeable")
                   "1.10000" "1.10020"],
                [display_row "EUR_USD" "1.10000" "1.10020"]);
               ([], []);
               ([], [display_row "EUR_USD" "1.10000" "1.10020"])]
              start eq_refl)
    as (st' & E & Ha & Ht & _).
  - constructor; [exact (contributes_valid IsoSeconds.strftime quote_ok_valid)|].
    constructor.
    { apply contributes_nothing. eapply bid_missing; [reflexivity|].
      apply side_empty. reflexivity. }
    constructor; [|constructor].
    exact (contributes_display_only IsoSeconds.strftime quote_no_time_has_quote
             quote_no_time_lacks_stamp).
  - exists st'. repeat split; assumption.
Defined.

(** C4 on one row and a client whose calls go through. *)
Lemma C4_witness :
  exists st',
    append_bulk_to_sheet Bot21 (Some (mkClient (fun _ => None) (fun _ => None)))
      "Prices" [[PStr "EUR_USD"]] start = (inr 1, st')
    /\ sheet1 st' = [[PStr "EUR_USD"]].
Proof.
  destruct (C4_sink_contract Bot21 (Some (mkClient (fun _ => None) (fun _ => None)))
              "Prices" [[PStr "EUR_USD"]] start)
    as (n & st' & E & _ & Hok & _).
  destruct Hok as (Hn & H1 & _); [discriminate | reflexivity |].
  exists st'. rewrite Hn in E. split; [exact E | exact H1].
Defined.

(** C5 as stated fails: one instrument requested, two valid records
    returned, two quotes parsed. *)
Lemma C5_counterexample :
  length (INSTRUMENTS_LIST (sample_config "EUR_USD")) = 1
  /\ length (all_rows_for_gsheet
               (snd (run Bot21 (sample_config "EUR_USD")
                         (answering (inr (prices_response [quote_ok; quote_long]))
                                    None None)
                         start))) = 2.
Proof. split; reflexivity. Qed.

(** C5 (amended) with two instruments requested and two records returned,
    one of them without a first bid. *)
Lemma C5_witness :
  length (returned_records (sample_config "EUR_USD,USD_JPY")
            (answering (inr (prices_response [quote_ok; quote_no_bids])) None None))
  <= length (INSTRUMENTS_LIST (sample_config "EUR_USD,USD_JPY"))
  /\ length (all_rows_for_gsheet
               (snd (run Bot21 (sample_config "EUR_USD,USD_JPY")
                         (answering (inr (prices_response [quote_ok; quote_no_bids]))
                                    None None)
                         start)))
     <= length (INSTRUMENTS_LIST (sample_config "EUR_USD,USD_JPY"))
  /\ rows_written
       (snd (run Bot21 (sample_config "EUR_USD,USD_JPY")
                 (answering (inr (prices_response [quote_ok; quote_no_bids])) None None)
                 start))
     <= length (all_rows_for_gsheet
                  (snd (run Bot21 (sample_config "EUR_USD,USD_JPY")
                            (answering (inr (prices_response [quote_ok; quote_no_bids]))
                                       None None)
                            start))).
Proof.
  assert (H : length (returned_records (sample_config "EUR_USD,USD_JPY")
                        (answering (inr (prices_response [quote_ok; quote_no_bids]))
                                   None None))
              <= length (INSTRUMENTS_LIST (sample_config "EUR_USD,USD_JPY")))
    by (cbn; lia).
  split; [exact H|].
  destruct (C5_counters IsoSeconds.fromisoformat IsoSeconds.strftime Bot21
              (sample_config "EUR_USD,USD_JPY")
              (answering (inr (prices_response [quote_ok; quote_no_bids])) None None)
              [])
    as (_ & Hreq & Hw & _).
  split; [exact (Hreq H) | exact Hw].
Defined.

(** C6, the defect. The request raises and the send of the failure embed,
    which sits in the [except] handler outside any [try], raises too:
    nothing is delivered, the exception leaves the body and the loop does
    not take its regular wait. Both versions. When that send goes through,
    the cycle is the one C6 describes: [fetch_failure_short_circuits]. *)
Theorem C6_failure_notice_send_escapes :
  run Bot21 (sample_config "EUR_USD")
      (answering (inl "503 Service Unavailable") None (Some "Cannot connect to host"))
      start
  = (inl (LibraryError "Cannot connect to host"),
     mkState
       [Log _ INFO "Starting data fetch for 1 instruments." None;
        PricingRequest _ "101-004-1234567-001" "EUR_USD";
        Log _ ERROR "OANDA API request failed: "
            (Some (LibraryError "503 Service Unavailable"));
        ChannelSend (failure_embed _ Bot21 "503 Service Unavailable")]
       [] [] [] [] 0)
  /\ fst (loop_iteration IsoSeconds.fromisoformat IsoSeconds.strftime Bot21
            (sample_config "EUR_USD")
            (answering (inl "503 Service Unavailable") None
                       (Some "Cannot connect to host"))
            start)
     = IterationRaised (LibraryError "Cannot connect to host")
  /\ fst (loop_iteration IsoSeconds.fromisoformat IsoSeconds.strftime Bot3
            (sample_config "EUR_USD")
            (answering (inl "503 Service Unavailable") None
                       (Some "Cannot connect to host"))
            start)
     = IterationRaised (LibraryError "Cannot connect to host").
Proof. repeat split; reflexivity. Qed.

(** The short circuit when the request raises and the channel takes the
    embed. *)
Lemma fetch_failure_short_circuits_example :
  fst (run Bot21 (sample_config "EUR_USD")
           (answering (inl "503 Service Unavailable") None None) start) = inr tt
  /\ sheet_calls
       (events (snd (run Bot21 (sample_config "EUR_USD")
                         (answering (inl "503 Service Unavailable") None None)
                         start))) = []
  /\ fst (loop_iteration IsoSeconds.fromisoformat IsoSeconds.strftime Bot21
            (sample_config "EUR_USD")
            (answering (inl "503 Service Unavailable") None None) start)
     = SleepUntilNextIteration 60.
Proof.
  destruct (@fetch_failure_short_circuits
              _ IsoSeconds.fromisoformat IsoSeconds.strftime Bot21
              (sample_config "EUR_USD")
              (answering (inl "503 Service Unavailable") None None)
              (mkChannel (fun _ => None)) "503 Service Unavailable" []
              eq_refl eq_refl)
    as (_ & _ & _ & Hc & _ & Hok).
  destruct (Hok eq_refl) as (Hres & _ & Hloop).
  split; [exact Hres|]. split; [exact Hc | exact Hloop].
Defined.

(** C1, the defect. Two instruments are requested and OANDA returns a
    complete record and one whose [bids] array is empty; the sheet takes the
    one row. Version 3 colours the report green although rows_written (1) is
    not the number of instruments requested (2); version 2.1 colours it
    orange on the same input. *)
Theorem C1_Bot3_green_with_a_row_missing :
  length (INSTRUMENTS_LIST (sample_config "EUR_USD,USD_JPY")) = 2
  /\ rows_written
       (snd (run Bot3 (sample_config "EUR_USD,USD_JPY")
                 (answering (inr (prices_response [quote_ok; quote_no_bids])) None None)
                 start)) = 1
  /\ map (@embed_color _)
         (sent_embeds
            (events (snd (run Bot3 (sample_config "EUR_USD,USD_JPY")
                              (answering (inr (prices_response [quote_ok; quote_no_bids]))
                                         None None)
                              start)))) = [Green]
  /\ map (@embed_color _)
         (sent_embeds
            (events (snd (run Bot21 (sample_config "EUR_USD,USD_JPY")
                              (answering (inr (prices_response [quote_ok; quote_no_bids]))
                                         None None)
                              start)))) = [Orange].
Proof. repeat split; reflexivity. Qed.

(** C7, the defect. In 2.1 the send of the failure embed is outside any
    [try]: when the request raises and that send raises, the exception
    leaves [monitor_and_report]. In 3 the send of the full report is
    unguarded as well: when it raises, the exception leaves the body, where
    2.1 returns normally after logging. *)
Theorem C7_send_failure_escapes :
  fst (run Bot21 (sample_config "EUR_USD")
           (answering (inl "503 Service Unavailable") None
                      (Some "Cannot connect to host"))
           start)
  = inl (LibraryError "Cannot connect to host")
  /\ fst (run Bot3 (sample_config "EUR_USD")
              (answering (inr (prices_response [quote_ok])) None
                         (Some "Cannot connect to host"))
              start)
     = inl (LibraryError "Cannot connect to host")
  /\ fst (run Bot21 (sample_config "EUR_USD")
              (answering (inr (prices_response [quote_ok])) None
                         (Some "Cannot connect to host"))
              start)
     = inr tt.
Proof. repeat split; reflexivity. Qed.

(** The narrow [except] of 2.1: a [null] price raises [AttributeError] at
    [rjust], which stops the loop and leaves the body; 3 logs it and goes
    on to the next record. *)
Lemma Bot21_null_price_stops_the_loop :
  fst (run_records Bot21 (prices_response [quote_null_bid; quote_ok]) start)
  = inl AttributeError
  /\ all_rows_for_gsheet
       (snd (run_records Bot21 (prices_response [quote_null_bid; quote_ok]) start))
     = []
  /\ fst (run_records Bot3 (prices_response [quote_null_bid; quote_ok]) start)
     = inr tt
  /\ length (all_rows_for_gsheet
               (snd (run_records Bot3 (prices_response [quote_null_bid; quote_ok])
                                 start))) = 1.
Proof. repeat split; reflexivity. Qed.

(** C8 as stated fails: an instrument of fourteen characters is not cut to
    ten; its DisplayRow has 39 characters where the others have 35. *)
Lemma C8_counterexample :
  table_rows_for_discord (snd (run_record Bot21 quote_long start))
  = ["NATGAS_USD_CFD|      2.531 |      2.539"]
  /\ String.length (ljust "NATGAS_USD_CFD" 10) = 14
  /\ String.length (display_row "NATGAS_USD_CFD" "2.531" "2.539") = 39
  /\ String.length (display_row "EUR_USD" "1.10000" "1.10020") = 35.
Proof. repeat split; reflexivity. Qed.

(** C8 (amended) at the record [quote_no_time]. *)
Lemma C8_witness :
  table_rows_for_discord (snd (run_record Bot3 quote_no_time start))
  = ["EUR_USD   |    1.10000 |    1.10020"]
  /\ String.length (@separator) = 37.
Proof.
  destruct (@C8_display_format _ IsoSeconds.fromisoformat IsoSeconds.strftime Bot3
              _ _ _ _ start quote_no_time_has_quote)
    as (Hrow & _ & Hh & _ & Hlen).
  split; [exact Hrow|]. rewrite Hlen, Hh. reflexivity.
Defined.

(** C9 as stated fails: the only record returned has a quote but no [time];
    zero quotes are parsed, yet the report of 2.1 shows the table with its
    DisplayRow and carries no description. *)
Lemma C9_counterexample :
  all_rows_for_gsheet
    (snd (run Bot21 (sample_config "EUR_USD")
              (answering (inr (prices_response [quote_no_time])) None None) start))
  = []
  /\ map (fun e => (embed_description e, map field_name (embed_fields e),
                    map field_value (embed_fields e)))
         (sent_embeds
            (events (snd (run Bot21 (sample_config "EUR_USD")
                              (answering (inr (prices_response [quote_no_time]))
                                         None None)
                              start))))
     = [(None,
         ["Live Prices"; "Instruments Fetched"; "Rows Written to GSheet"],
         ["```" ++ newline ++ "Instrument|         BID |         ASK" ++ newline
          ++ "-------------------------------------" ++ newline
          ++ "EUR_USD   |    1.10000 |    1.10020" ++ newline ++ "```";
          "`0`"; "`0`"])].
Proof. split; reflexivity. Qed.

(** C9 (amended) on an empty answer in 2.1: the message, and no table. *)
Lemma C9_witness :
  exists report,
    sent_embeds
      (events (snd (run Bot21 (sample_config "EUR_USD")
                        (answering (inr (prices_response [])) None None) start)))
    = [report]
    /\ embed_description report = Some "No price data was returned from the API.".
Proof.
  destruct (@C9_report_body _ IsoSeconds.fromisoformat IsoSeconds.strftime Bot21
              (sample_config "EUR_USD")
              (answering (inr (prices_response [])) None None)
              (mkChannel (fun _ => None)) (prices_response []) []
              eq_refl eq_refl eq_refl)
    as (report & Hs & _ & Hbody).
  exists report. split; [exact Hs|].
  exact (proj2 Hbody eq_refl).
Defined.

(** C10 at the record [quote_no_time]: a DisplayRow and no SheetRow. *)
Lemma C10_witness :
  exists st',
    run_record Bot21 quote_no_time start = (inr tt, st')
    /\ all_rows_for_gsheet st' = []
    /\ table_rows_for_discord st' = ["EUR_USD   |    1.10000 |    1.10020"].
Proof.
  exact (proj2 (C10_display_rows_at_least_sheet_rows
                  IsoSeconds.fromisoformat IsoSeconds.strftime Bot21)
               _ _ _ _ start quote_no_time_has_quote quote_no_time_lacks_stamp).
Defined.

(** ** Start-up *)

Lemma length_split s sep : length (split s sep) = S (count_char sep s).
Proof.
  induction s as [|c rest IH]; [reflexivity|].
  cbn [split count_char]. destruct (Ascii.eqb c sep).
  - cbn. rewrite IH. reflexivity.
  - destruct (split rest sep); [discriminate|]. cbn in *. exact IH.
Qed.

Lemma truthy_set o : Startup.truthy o = true -> exists c rest, o = Some (String c rest).
Proof. destruct o as [[|c rest]|]; try discriminate. eauto. Qed.

(** X13. What the validation of 2.1 guarantees. When the start-up of 2.1
    does not exit, the token, the account, the access token, the sheet name
    and the credentials path are set and not empty, CHANNEL_ID is an integer
    other than 0, INSTRUMENTS is not empty (so at least one instrument is
    requested), every setting is the value of its environment variable (or
    its default), and the cycle has its configuration. *)
Theorem validated_settings_are_complete int getenv s :
  Startup.load_config Bot21 int getenv = Startup.Loaded s ->
  (Startup.truthy (Startup.BOT_TOKEN s) = true
   /\ Startup.truthy (Startup.OANDA_ACCOUNT_ID s) = true
   /\ Startup.truthy (Startup.OANDA_ACCESS_TOKEN s) = true
   /\ Startup.truthy (Startup.GOOGLE_SHEET_NAME s) = true
   /\ Startup.truthy (Startup.SERVICE_ACCOUNT_FILE s) = true)
  /\ Startup.CHANNEL_ID s <> 0%Z
  /\ Startup.int_getenv int getenv "CHANNEL_ID" = Some (Startup.CHANNEL_ID s)
  /\ Startup.BOT_TOKEN s = getenv "BOT_TOKEN"
  /\ getenv "INSTRUMENTS" = Some (Startup.INSTRUMENTS_STR s)
  /\ Startup.INSTRUMENTS_STR s <> ""
  /\ (exists cfg,
        Startup.cycle_config s = Some cfg
        /\ INSTRUMENTS_STR cfg = Startup.INSTRUMENTS_STR s
        /\ CHECK_INTERVAL_SECONDS cfg = Startup.CHECK_INTERVAL_SECONDS s
        /\ 1 <= length (INSTRUMENTS_LIST cfg))
  /\ Startup.OANDA_ACCOUNT_ID s = getenv "OANDA_ACCOUNT_ID"
  /\ Startup.OANDA_ACCESS_TOKEN s = getenv "OANDA_ACCESS_TOKEN"
  /\ Startup.GOOGLE_SHEET_NAME s = getenv "GOOGLE_SHEET_NAME"
  /\ Startup.SERVICE_ACCOUNT_FILE s = getenv "SERVICE_ACCOUNT_FILE"
  /\ Startup.OANDA_ENVIRONMENT s
     = Startup.getenv_default getenv "OANDA_ENVIRONMENT" "practice"
  /\ int (Startup.getenv_default getenv "CHECK_INTERVAL_SECONDS" "60")
     = Some (Startup.CHECK_INTERVAL_SECONDS s)
  /\ (exists cfg,
        Startup.cycle_config s = Some cfg
        /\ Some (OANDA_ACCOUNT_ID cfg) = getenv "OANDA_ACCOUNT_ID"
        /\ Some (GOOGLE_SHEET_NAME cfg) = getenv "GOOGLE_SHEET_NAME").
Proof.
  unfold Startup.load_config.
  destruct (Startup.int_getenv int getenv "CHANNEL_ID") as [channel_id|];
    [|discriminate].
  destruct (int (Startup.getenv_default getenv "CHECK_INTERVAL_SECONDS" "60"))
    as [interval|] eqn:Hint; [|discriminate].
  destruct (getenv "INSTRUMENTS") as [[|c rest]|]; try discriminate.
  destruct (Startup.truthy (getenv "BOT_TOKEN")) eqn:T1; [|discriminate].
  destruct (Z.eqb_spec channel_id 0) as [|Hz]; [discriminate|].
  destruct (Startup.truthy (getenv "OANDA_ACCOUNT_ID")) eqn:T2; [|discriminate].
  destruct (Startup.truthy (getenv "OANDA_ACCESS_TOKEN")) eqn:T3; [|discriminate].
  destruct (Startup.truthy (getenv "GOOGLE_SHEET_NAME")) eqn:T4; [|discriminate].
  destruct (Startup.truthy (getenv "SERVICE_ACCOUNT_FILE")) eqn:T5; [|discriminate].
  cbn [andb negb]. intros [= <-]. cbn.
  split; [auto|]. split; [exact Hz|]. repeat (split; [reflexivity || discriminate|]).
  destruct (truthy_set _ T2) as (c2 & r2 & E2).
  destruct (truthy_set _ T4) as (c4 & r4 & E4).
  rewrite E2, E4. split.
  - eexists. split; [reflexivity|]. cbn [INSTRUMENTS_STR CHECK_INTERVAL_SECONDS].
    repeat split. unfold INSTRUMENTS_LIST. rewrite length_map, length_split. lia.
  - repeat (split; [reflexivity|]).
    eexists. split; [reflexivity|]. split; reflexivity.
Qed.


(** X15. Version 3 accepts whatever 2.1 accepts, with the same settings:
    it only dropped the test that the variables are all set. *)
Theorem Bot3_loads_what_Bot21_loads int getenv s :
  Startup.load_config Bot21 int getenv = Startup.Loaded s ->
  Startup.load_config Bot3 int getenv = Startup.Loaded s.
Proof.
  unfold Startup.load_config.
  destruct (Startup.int_getenv int getenv "CHANNEL_ID") as [channel_id|];
    [|discriminate].
  destruct (int (Startup.getenv_default getenv "CHECK_INTERVAL_SECONDS" "60"))
    as [interval|]; [|discriminate].
  destruct (getenv "INSTRUMENTS") as [[|c rest]|]; try discriminate.
  destruct (Startup.truthy (getenv "BOT_TOKEN")); [|discriminate].
  destruct (negb (channel_id =? 0)%Z); [|discriminate].
  destruct (Startup.truthy (getenv "OANDA_ACCOUNT_ID")); [|discriminate].
  destruct (Startup.truthy (getenv "OANDA_ACCESS_TOKEN")); [|discriminate].
  destruct (Startup.truthy (getenv "GOOGLE_SHEET_NAME")); [|discriminate].
  destruct (Startup.truthy (getenv "SERVICE_ACCOUNT_FILE")) eqn:T5; [|discriminate].
  cbn [andb]. intros [= <-].
  destruct (truthy_set _ T5) as (c5 & r5 & E5).
  unfold Startup.getenv_default. rewrite E5. reflexivity.
Qed.

Lemma rstrip_rstrip s : rstrip (rstrip s) = rstrip s.
Proof.
  induction s as [|c rest IH]; [reflexivity|].
  cbn [rstrip]. destruct (rstrip rest) as [|k kept] eqn:E.
  - destruct (isspace c) eqn:Hc; [reflexivity|]. cbn [rstrip]. rewrite Hc. reflexivity.
  - change (rstrip (String c (String k kept)))
      with (match rstrip (String k kept) with
            | EmptyString => if isspace c then EmptyString else String c EmptyString
            | String k' kept' => String c (String k' kept')
            end).
    rewrite IH. reflexivity.
Qed.

Lemma lstrip_rstrip_lstrip s : lstrip (rstrip (lstrip s)) = rstrip (lstrip s).
Proof.
  assert (H : forall t, (t = EmptyString \/ exists c rest, t = String c rest /\ isspace c = false) ->
                        lstrip (rstrip t) = rstrip t).
  { intros t [-> | (c & rest & -> & Hc)]; [reflexivity|].
    cbn [rstrip]. rewrite Hc.
    destruct (rstrip rest); cbn [lstrip]; rewrite Hc; reflexivity. }
  apply H. induction s as [|c rest IH]; [left; reflexivity|].
  cbn [lstrip]. destruct (isspace c) eqn:Hc; [exact IH|].
  right. eauto.
Qed.

(** X16. The instruments requested. [INSTRUMENTS_LIST] has one entry more
    than INSTRUMENTS has commas (an empty piece counts as an instrument),
    and no entry begins or ends with white space: stripping an entry again
    changes nothing. *)
Theorem instruments_requested cfg :
  length (INSTRUMENTS_LIST cfg) = S (count_char "," (INSTRUMENTS_STR cfg))
  /\ Forall (fun instrument => strip instrument = instrument) (INSTRUMENTS_LIST cfg).
Proof.
  unfold INSTRUMENTS_LIST. split.
  - rewrite length_map. apply length_split.
  - apply Forall_forall. intros e He. apply in_map_iff in He.
    destruct He as (piece & <- & _). unfold strip.
    rewrite lstrip_rstrip_lstrip. apply rstrip_rstrip.
Qed.

(** ** The further properties at concrete inputs *)

(** X1 with no channel. *)
Lemma missing_channel_witness :
  run Bot21 (sample_config "EUR_USD")
      (mkWorld None (fun _ _ => inr (prices_response [quote_ok])) None IsoSeconds.now)
      start
  = (inr tt,
     mkState [Log _ WARNING "Cannot find Discord channel. Will retry next cycle." None]
             [] [] [] [] 0).
Proof.
  exact (@missing_channel_skips_the_cycle
           _ IsoSeconds.fromisoformat IsoSeconds.strftime Bot21
           (sample_config "EUR_USD")
           (mkWorld None (fun _ _ => inr (prices_response [quote_ok])) None
                    IsoSeconds.now)
           start eq_refl).
Defined.

(** X2 on a record with a [null] price in 2.1. *)
Lemma exceptions_leaving_a_cycle_witness :
  fst (run Bot21 (sample_config "EUR_USD")
           (answering (inr (prices_response [quote_null_bid])) None None) start)
  = inl AttributeError
  /\ sent_embeds
       (events (snd (run Bot21 (sample_config "EUR_USD")
                         (answering (inr (prices_response [quote_null_bid])) None None)
                         start))) = [].
Proof.
  split; [reflexivity|].
  destruct (@exceptions_leaving_a_cycle
              _ IsoSeconds.fromisoformat IsoSeconds.strftime Bot21
              (sample_config "EUR_USD")
              (answering (inr (prices_response [quote_null_bid])) None None)
              [] AttributeError eq_refl)
    as [(text & em & He & _) | (_ & Hs & _)]; [discriminate | exact Hs].
Defined.

(** X3 on a batch that stops the loop of 2.1. *)
Lemma Bot3_always_reports_witness :
  exists report,
    sent_embeds
      (events (snd (run Bot3 (sample_config "EUR_USD")
                        (answering (inr (prices_response [quote_null_bid; quote_ok]))
                                   None None)
                        start))) = [report]
    /\ embed_title report = "OANDA Price Report".
Proof.
  destruct (@Bot3_always_reports
              _ IsoSeconds.fromisoformat IsoSeconds.strftime
              (sample_config "EUR_USD")
              (answering (inr (prices_response [quote_null_bid; quote_ok])) None None)
              (mkChannel (fun _ => None))
              (prices_response [quote_null_bid; quote_ok])
              (PList [quote_null_bid; quote_ok]) [quote_null_bid; quote_ok] []
              eq_refl eq_refl eq_refl eq_refl)
    as (report & Hs & Ht & _).
  exists report. split; assumption.
Defined.

(** X4 on a cycle that writes one row. *)
Lemma sheet_accounting_witness :
  exists added,
    sheet1 (snd (run Bot21 (sample_config "EUR_USD")
                     (answering (inr (prices_response [quote_ok])) None None)
                     (fresh _ [[PStr "old row"]])))
    = ([[PStr "old row"]] ++ added)%list
    /\ length added = 1.
Proof.
  destruct (sheet_accounting IsoSeconds.fromisoformat IsoSeconds.strftime Bot21
              (sample_config "EUR_USD")
              (answering (inr (prices_response [quote_ok])) None None)
              [[PStr "old row"]])
    as (added & H1 & Hn & _).
  exists added. split; [exact H1 | exact Hn].
Defined.

(** X5 on a cycle with no client. *)
Lemma at_most_one_send_and_one_append_witness :
  sheet_calls
    (events (snd (run Bot21 (sample_config "EUR_USD")
                      (mkWorld (Some (mkChannel (fun _ => None)))
                               (fun _ _ => inr (prices_response [quote_ok])) None
                               IsoSeconds.now)
                      start))) = [].
Proof.
  exact (proj2 (proj2
           (at_most_one_send_and_one_append
              IsoSeconds.fromisoformat IsoSeconds.strftime Bot21
              (sample_config "EUR_USD")
              (mkWorld (Some (mkChannel (fun _ => None)))
                       (fun _ _ => inr (prices_response [quote_ok])) None
                       IsoSeconds.now)
              []))
           (or_intror eq_refl)).
Defined.

(** X6 when the append is refused. *)
Lemma sink_failure_still_reports_witness :
  exists report,
    sent_embeds
      (events (snd (run Bot3 (sample_config "EUR_USD")
                        (answering (inr (prices_response [quote_ok]))
                                   (Some "Quota exceeded") None)
                        start))) = [report]
    /\ embed_color report = Orange.
Proof.
  destruct (@sink_failure_still_reports
              _ IsoSeconds.fromisoformat IsoSeconds.strftime Bot3
              (sample_config "EUR_USD")
              (answering (inr (prices_response [quote_ok])) (Some "Quota exceeded") None)
              (mkChannel (fun _ => None)) (prices_response [quote_ok]) []
              eq_refl eq_refl eq_refl eq_refl)
    as (report & Hs & Hc & _).
  exists report. split; assumption.
Defined.

(** X8 on a batch with a defective record. *)
Lemma versions_write_the_same_rows_witness :
  sheet1 (snd (run Bot3 (sample_config "EUR_USD,USD_JPY")
                   (answering (inr (prices_response [quote_ok; quote_no_bids])) None None)
                   start))
  = sheet1 (snd (run Bot21 (sample_config "EUR_USD,USD_JPY")
                     (answering (inr (prices_response [quote_ok; quote_no_bids]))
                                None None)
                     start)).
Proof.
  exact (proj1 (proj2 (proj2
           (@versions_write_the_same_rows
              _ IsoSeconds.fromisoformat IsoSeconds.strftime
              (sample_config "EUR_USD,USD_JPY")
              (answering (inr (prices_response [quote_ok; quote_no_bids])) None None)
              (mkChannel (fun _ => None))
              (prices_response [quote_ok; quote_no_bids]) []
              eq_refl eq_refl eq_refl)))).
Defined.

(** X9 on three records, two of them skipped. *)
Lemma every_record_is_a_row_or_a_warning_witness :
  exists logs,
    events (snd (run_records Bot21
                   (prices_response [quote_ok; quote_no_bids; quote_no_time]) start))
    = logs
    /\ length logs = 2.
Proof.
  destruct (@every_record_is_a_row_or_a_warning
              _ IsoSeconds.fromisoformat IsoSeconds.strftime Bot21
              (prices_response [quote_ok; quote_no_bids; quote_no_time]) start eq_refl)
    as (logs & He & _ & Hn).
  exists logs. split; [exact He|].
  change (length logs + 1 = 3) in Hn. lia.
Defined.

(** X11 when the credentials file is missing. *)
Lemma failed_authentication_witness :
  rows_written
    (snd (run Bot21 (sample_config "EUR_USD")
              (mkWorld (Some (mkChannel (fun _ => None)))
                       (fun _ _ => inr (prices_response [quote_ok])) None
                       IsoSeconds.now)
              start)) = 0.
Proof.
  exact (proj1 (proj2
           (@failed_authentication_disables_the_sink
              _ IsoSeconds.fromisoformat IsoSeconds.strftime Bot21
              "bot" "service.json"
              (mkGoogle (fun _ => CredentialsFileNotFound "No such file or directory")
                        (inl "unreachable"))
              (mkBot None false) start (sample_config "EUR_USD")
              (mkWorld (Some (mkChannel (fun _ => None)))
                       (fun _ _ => inr (prices_response [quote_ok])) None
                       IsoSeconds.now)
              [] eq_refl eq_refl))).
Defined.

(** X12 at the record [quote_no_time]. *)
Lemma display_row_width_witness :
  exists d,
    table_rows_for_discord (snd (run_record Bot21 quote_no_time start)) = [d]
    /\ String.length d = 35.
Proof.
  destruct (@display_row_width _ IsoSeconds.fromisoformat IsoSeconds.strftime Bot21
              _ _ _ _ start quote_no_time_has_quote)
    as (d & Hd & _ & H35 & _).
  exists d. split; [exact Hd|].
  apply H35; cbn; lia.
Defined.

Lemma sample_env_loads :
  exists s, Startup.load_config Bot21 PyInt.int Startup.sample_env = Startup.Loaded s.
Proof. eexists. reflexivity. Defined.

(** X13 on the sample environment. *)
Lemma validated_settings_witness :
  exists s,
    Startup.load_config Bot21 PyInt.int Startup.sample_env = Startup.Loaded s
    /\ Startup.CHANNEL_ID s <> 0%Z.
Proof.
  destruct sample_env_loads as (s & Hs). exists s. split; [exact Hs|].
  exact (proj1 (proj2 (validated_settings_are_complete _ _ Hs))).
Defined.


(** X15 on the sample environment. *)
Lemma Bot3_loads_what_Bot21_loads_witness :
  exists s, Startup.load_config Bot3 PyInt.int Startup.sample_env = Startup.Loaded s.
Proof.
  destruct sample_env_loads as (s & Hs). exists s.
  exact (Bot3_loads_what_Bot21_loads _ _ Hs).
Defined.

(** X17 on two valid records for two instruments requested. *)
Lemma full_success_witness :
  exists report,
    sent_embeds
      (events (snd (run Bot21 (sample_config "EUR_USD,NATGAS_USD_CFD")
                        (answering (inr (prices_response [quote_ok; quote_long]))
                                   None None)
                        start))) = [report]
    /\ embed_color report = Green.
Proof.
  refine (proj2 (proj2
            (@full_success_is_green
               _ IsoSeconds.fromisoformat IsoSeconds.strftime Bot21
               (sample_config "EUR_USD,NATGAS_USD_CFD")
               (answering (inr (prices_response [quote_ok; quote_long])) None None)
               (mkChannel (fun _ => None))
               [("time", PStr "2024-01-02T03:04:05Z");
                ("prices", PList [quote_ok; quote_long])]
               [quote_ok; quote_long]
               [sheet_row IsoSeconds.strftime "EUR_USD"
                  (IsoSeconds.mkDatetime 2024 1 2 3 4 5) (PStr "tradeable")
                  "1.10000" "1.10020";
                sheet_row IsoSeconds.strftime "NATGAS_USD_CFD"
                  (IsoSeconds.mkDatetime 2024 1 2 3 4 5) (PStr "tradeable")
                  "2.531" "2.539"]
               [] eq_refl eq_refl eq_refl _ eq_refl eq_refl))).
  constructor; [eexists; exact (contributes_valid IsoSeconds.strftime quote_ok_valid)|].
  constructor; [|constructor].
  eexists. apply contributes_valid.
  eexists _, "2024-01-02T03:04:05Z". split; [reflexivity|].
  split; [|repeat split; reflexivity].
  split; [reflexivity|].
  split; do 2 eexists; split; reflexivity.
Defined.

(** The colour rule of 2.1 on a failed request. *)
Lemma report_color_Bot21_witness :
  In (failure_embed IsoSeconds.datetime Bot21 "503 Service Unavailable")
     (sent_embeds
        (events (snd (run Bot21 (sample_config "EUR_USD")
                          (answering (inl "503 Service Unavailable") None None)
                          start))))
  /\ (embed_color (failure_embed IsoSeconds.datetime Bot21 "503 Service Unavailable")
      = Red
      <-> exists text,
         oanda_request (answering (inl "503 Service Unavailable") None None)
                       (OANDA_ACCOUNT_ID (sample_config "EUR_USD"))
                       (INSTRUMENTS_STR (sample_config "EUR_USD"))
         = inl text).
Proof.
  split; [left; reflexivity|].
  exact (proj1 (@report_color_Bot21
                  _ IsoSeconds.fromisoformat IsoSeconds.strftime
                  (sample_config "EUR_USD")
                  (answering (inl "503 Service Unavailable") None None) []
                  (failure_embed IsoSeconds.datetime Bot21 "503 Service Unavailable")
                  (or_introl eq_refl))).
Defined.

(** The guarded send of 2.1 when the channel refuses the report. *)
Lemma send_report_Bot21_recovers_witness :
  events (snd (send_report Bot21 (mkChannel (fun _ => Some "Cannot connect to host"))
                 (failure_embed IsoSeconds.datetime Bot21 "x") start))
  = [ChannelSend (failure_embed IsoSeconds.datetime Bot21 "x");
     Log _ ERROR "Failed to send message to Discord: "
         (Some (LibraryError "Cannot connect to host"))].
Proof.
  rewrite (proj2 (send_report_Bot21_recovers
                    (mkChannel (fun _ => Some "Cannot connect to host"))
                    (failure_embed IsoSeconds.datetime Bot21 "x") start)
                 "Cannot connect to host" eq_refl).
  reflexivity.
Defined.
